(** * Vimeo-Cleaner: a shallow embedding of [vimeo_cleaner.py]

    The program pages through the videos of a Vimeo account, downloads the
    ones created in a given year and deletes the remote copy of each video
    whose download returned success.

    The development follows the source file from the bottom up:

    - [Py]: the fragment of Python's value semantics the program relies on
      (JSON values as returned by [response.json()], subscripting, [dict.get],
      [str.replace], truthiness, iteration, exceptions);
    - [PosixPath]: [os.path.join];
    - [Datetime]: [datetime.fromisoformat];
    - [VimeoManager]: the methods of the class, written in a state and
      exception monad over the local file system, the network and the log.

    What the model takes for granted: a string is a sequence of 8-bit
    characters; paths are POSIX paths; the download directory is used by
    this run only, [os.path.exists] sees every file and [os.remove]
    removes the file it is given; logging does not fail; the exceptions
    are those below [Exception].  The answers of the network, and whether
    a file can be opened, are arbitrary: the statements hold for all of
    them.  The [while True] loop is run for a bounded number of pages,
    and the statements hold for every bound. *)

From Stdlib Require Import ZArith Lia String Ascii List.
From stdpp Require Import base option list gmap strings.

Set Warnings "-register-all".
Local Open Scope Z_scope.

(* ===================================================================== *)
(** ** Python values and exceptions *)
(* ===================================================================== *)

Module Py.

(** The exceptions the program can meet.  [RequestException] stands for
    every error of the HTTP layer ([requests], [vimeo]), [OSError] for
    the errors of the local file system. *)
Inductive exn : Type :=
| KeyError
| IndexError
| TypeError
| AttributeError
| ValueError
| RequestException
| OSError.

(** The result of evaluating an expression: a value or a raised
    exception. *)
Inductive outcome (A : Type) : Type :=
| Ret (a : A)
| Raise (e : exn).
Arguments Ret {A} a.
Arguments Raise {A} e.

Definition obind {A B} (o : outcome A) (k : A -> outcome B) : outcome B :=
  match o with
  | Ret a => k a
  | Raise e => Raise e
  end.

(** What [json.loads] builds: [None], booleans, numbers, strings, lists
    and dictionaries.  A dictionary keeps its items in insertion order.
    A number is an integer: the program never computes with one, and a
    float is subscripted, iterated and tested like an integer. *)
Inductive json : Type :=
| JNull
| JBool (b : bool)
| JNum (n : Z)
| JStr (s : string)
| JArr (l : list json)
| JObj (items : list (string * json)).

(** [bool(v)], as used by [if not v]. *)
Definition truthy (v : json) : bool :=
  match v with
  | JNull => false
  | JBool b => b
  | JNum n => negb (n =? 0)
  | JStr s => negb (String.eqb s "")
  | JArr l => match l with [] => false | _ => true end
  | JObj items => match items with [] => false | _ => true end
  end.

Fixpoint assoc (k : string) (items : list (string * json)) : option json :=
  match items with
  | [] => None
  | (k', v) :: rest => if String.eqb k k' then Some v else assoc k rest
  end.

(** [v[k]] for a string key [k]. *)
Definition getitem (v : json) (k : string) : outcome json :=
  match v with
  | JObj items =>
      match assoc k items with
      | Some x => Ret x
      | None => Raise KeyError
      end
  | _ => Raise TypeError
  end.

(** [v[0]]. *)
Definition getitem0 (v : json) : outcome json :=
  match v with
  | JArr [] => Raise IndexError
  | JArr (x :: _) => Ret x
  | JStr EmptyString => Raise IndexError
  | JStr (String c _) => Ret (JStr (String c EmptyString))
  | JObj _ => Raise KeyError
  | _ => Raise TypeError
  end.

(** [v.get(k, default)]: only dictionaries have the method. *)
Definition dict_get (v : json) (k : string) (default : json) : outcome json :=
  match v with
  | JObj items =>
      match assoc k items with
      | Some x => Ret x
      | None => Ret default
      end
  | _ => Raise AttributeError
  end.

(** [s.replace(old, new)] for a one-character [old]: every occurrence is
    replaced. *)
Fixpoint str_replace (old : ascii) (new : string) (s : string) : string :=
  match s with
  | EmptyString => EmptyString
  | String c rest =>
      if Ascii.eqb c old
      then String.append new (str_replace old new rest)
      else String c (str_replace old new rest)
  end.

(** [v.replace(old, new)]: only strings have the method. *)
Definition replace (v : json) (old : ascii) (new : string) : outcome string :=
  match v with
  | JStr s => Ret (str_replace old new s)
  | _ => Raise AttributeError
  end.

(** [c in s] *)
Fixpoint contains (c : ascii) (s : string) : bool :=
  match s with
  | EmptyString => false
  | String a rest => Ascii.eqb a c || contains c rest
  end.

Fixpoint chars (s : string) : list json :=
  match s with
  | EmptyString => []
  | String c rest => JStr (String c EmptyString) :: chars rest
  end.

(** [iter(v)], as used by [for x in v]: the elements of a list, the keys
    of a dictionary, the characters of a string. *)
Definition iter (v : json) : outcome (list json) :=
  match v with
  | JArr l => Ret l
  | JObj items => Ret (map (fun kv => JStr (fst kv)) items)
  | JStr s => Ret (chars s)
  | _ => Raise TypeError
  end.

End Py.

(* ===================================================================== *)
(** ** [os.path.join] *)
(* ===================================================================== *)

Module PosixPath.

Definition startswith_sep (s : string) : bool :=
  match s with
  | String c _ => Ascii.eqb c "/"
  | EmptyString => false
  end.

Fixpoint endswith_sep (s : string) : bool :=
  match s with
  | EmptyString => false
  | String c EmptyString => Ascii.eqb c "/"
  | String _ rest => endswith_sep rest
  end.

(** [os.path.join(a, b)] of [posixpath]: an absolute [b] replaces [a];
    the separator is inserted unless [a] is empty or already ends with
    it. *)
Definition join (a b : string) : string :=
  if startswith_sep b then b
  else if (String.eqb a "" || endswith_sep a)%bool then String.append a b
  else String.append a (String.append "/" b).

End PosixPath.

(* ===================================================================== *)
(** ** [datetime.fromisoformat] *)
(* ===================================================================== *)

Module Datetime.
Import Py.

Record datetime : Type := {
  year : Z;
  month : Z;
  day : Z;
  hour : Z;
  minute : Z;
  second : Z;
  microsecond : Z;
  (** [None] for a naive value, else the UTC offset in microseconds *)
  utcoffset : option Z
}.

Definition digit (c : ascii) : option Z :=
  let n := Z.of_nat (nat_of_ascii c) in
  if (48 <=? n) && (n <=? 57) then Some (n - 48) else None.

(** [int(s)] for a non-empty run of decimal digits. *)
Fixpoint digits_acc (acc : Z) (s : string) : option Z :=
  match s with
  | EmptyString => Some acc
  | String c rest =>
      match digit c with
      | Some d => digits_acc (10 * acc + d) rest
      | None => None
      end
  end.

Definition digits (s : string) : option Z :=
  match s with
  | EmptyString => None
  | _ => digits_acc 0 s
  end.

(** [s[i:j]] *)
Definition slice (i j : nat) (s : string) : string :=
  substring i (j - i) s.

(** [s[i:]] *)
Fixpoint drop_str (i : nat) (s : string) : string :=
  match i, s with
  | O, _ => s
  | S i', String _ rest => drop_str i' rest
  | S _, EmptyString => EmptyString
  end.

Definition is_leap (y : Z) : bool :=
  ((y mod 4 =? 0) && (negb (y mod 100 =? 0) || (y mod 400 =? 0)))%bool.

Definition days_in_month (y m : Z) : Z :=
  if m =? 2 then (if is_leap y then 29 else 28)
  else if (m =? 4) || (m =? 6) || (m =? 9) || (m =? 11) then 30
  else 31.

(** [_parse_isoformat_date]: [YYYY-MM-DD] in exactly ten characters. *)
Definition parse_isoformat_date (d : string) : option (Z * Z * Z) :=
  if negb (Nat.eqb (String.length d) 10) then None
  else
    match digits (slice 0 4 d), digits (slice 5 7 d), digits (slice 8 10 d) with
    | Some y, Some m, Some dd =>
        if String.eqb (slice 4 5 d) "-" && String.eqb (slice 7 8 d) "-"
        then Some (y, m, dd) else None
    | _, _, _ => None
    end.

Definition two_digits (s : string) : option (Z * string) :=
  match s with
  | String a (String b rest) =>
      match digit a, digit b with
      | Some x, Some y => Some (10 * x + y, rest)
      | _, _ => None
      end
  | _ => None
  end.

(** the fraction after the decimal point: three or six digits *)
Definition parse_fraction (f : string) : option Z :=
  match String.length f with
  | 3%nat => option_map (fun z => z * 1000) (digits f)
  | 6%nat => digits f
  | _ => None
  end.

(** [_parse_hh_mm_ss_ff]: [HH[:MM[:SS[.fff[fff]]]]] *)
Definition parse_hh_mm_ss_ff (t : string) : option (Z * Z * Z * Z) :=
  match two_digits t with
  | None => None
  | Some (hh, EmptyString) => Some (hh, 0, 0, 0)
  | Some (hh, String c1 r1) =>
      if negb (Ascii.eqb c1 ":") then None
      else
        match two_digits r1 with
        | None => None
        | Some (mm, EmptyString) => Some (hh, mm, 0, 0)
        | Some (mm, String c2 r2) =>
            if negb (Ascii.eqb c2 ":") then None
            else
              match two_digits r2 with
              | None => None
              | Some (ss, EmptyString) => Some (hh, mm, ss, 0)
              | Some (ss, String c3 f) =>
                  if negb (Ascii.eqb c3 ".") then None
                  else option_map (fun ff => (hh, mm, ss, ff)) (parse_fraction f)
              end
        end
  end.

(** [s.find(c)] *)
Fixpoint find (c : ascii) (s : string) : option nat :=
  match s with
  | EmptyString => None
  | String a rest =>
      if Ascii.eqb a c then Some O else option_map S (find c rest)
  end.

Definition microseconds (c : Z * Z * Z * Z) : Z :=
  let '(hh, mm, ss, ff) := c in
  ((hh * 60 + mm) * 60 + ss) * 1000000 + ff.

(** [_parse_isoformat_time]:
    [HH[:MM[:SS[.fff[fff]]]][+HH:MM[:SS[.ffffff]]]].  The offset starts at
    the first ['-'] or, when there is none, at the first ['+']; it must
    lie strictly between minus and plus twenty-four hours. *)
Definition parse_isoformat_time (t : string)
  : option (Z * Z * Z * Z * option Z) :=
  if (String.length t <? 2)%nat then None
  else
    let tz_pos :=
      match find "-" t with
      | Some i => Some i
      | None => find "+" t
      end in
    match tz_pos with
    | None => option_map (fun c => (c, None)) (parse_hh_mm_ss_ff t)
    | Some i =>
        let timestr := slice 0 i t in
        let tzstr := drop_str (S i) t in
        match parse_hh_mm_ss_ff timestr with
        | None => None
        | Some c =>
            let n := String.length tzstr in
            if negb (Nat.eqb n 5 || Nat.eqb n 8 || Nat.eqb n 15) then None
            else
              match parse_hh_mm_ss_ff tzstr with
              | None => None
              | Some tz =>
                  let sign := if String.eqb (slice i (S i) t) "-" then -1 else 1 in
                  let off := sign * microseconds tz in
                  if (-86400000000 <? off) && (off <? 86400000000)
                  then Some (c, Some off) else None
              end
        end
    end.

(** the range checks of the [datetime] constructor *)
Definition valid_fields (y m d hh mm ss ff : Z) : bool :=
  (1 <=? y) && (y <=? 9999) && (1 <=? m) && (m <=? 12)
  && (1 <=? d) && (d <=? days_in_month y m)
  && (hh <? 24) && (mm <? 60) && (ss <? 60) && (ff <? 1000000).

(** [datetime.fromisoformat(s)] as CPython 3.7 to 3.10 defines it: the
    strings [datetime.isoformat] emits,
    [YYYY-MM-DD[*HH[:MM[:SS[.fff[fff]]]][+HH:MM[:SS[.ffffff]]]]], where
    [*] is any one character.  Digits are read strictly.  Every rejection
    is reported as [ValueError]. *)
Definition fromisoformat (s : string) : outcome datetime :=
  let dstr := slice 0 10 s in
  let tstr := drop_str 11 s in
  match parse_isoformat_date dstr with
  | None => Raise ValueError
  | Some (y, m, d) =>
      let time :=
        match tstr with
        | EmptyString => Some (0, 0, 0, 0, None)
        | _ => parse_isoformat_time tstr
        end in
      match time with
      | None => Raise ValueError
      | Some (hh, mm, ss, ff, tz) =>
          if valid_fields y m d hh mm ss ff
          then Ret {| year := y; month := m; day := d; hour := hh;
                      minute := mm; second := ss; microsecond := ff;
                      utcoffset := tz |}
          else Raise ValueError
      end
  end.

End Datetime.

(* ===================================================================== *)
(** ** The class [VimeoManager] *)
(* ===================================================================== *)

Module VimeoManager.
Import Py.

(** *** The outside world *)

(** [self.download_dir] and [self.per_page], read from the process
    environment by [__init__]. *)
Record config : Type := {
  download_dir : string;
  per_page : Z
}.

(** The [content-length] header of a download response, as [int()] reads
    it. *)
Inductive header : Type :=
| HAbsent
| HInt (n : Z)
| HMalformed.

(** What [self.vimeo_client.get('/me/videos', ...)] does: it raises, or
    returns a response with a status and a body that is JSON or not. *)
Inductive list_response : Type :=
| ListRaise
| ListResp (status : Z) (body : option json).

(** What [self.session.get(link, stream=True, timeout=30)] does, once the
    retries of the mounted adapter are over: it raises, or returns a
    response with a status, a [content-length] header and a body that
    arrives as [chunks]; when [complete] is [false] the iteration (or the
    write) raises after the last of them. *)
Inductive get_response : Type :=
| GetRaise
| GetResp (status : Z) (content_length : header)
          (chunks : list string) (complete : bool).

(** What [self.vimeo_client.delete(uri)] does. *)
Inductive delete_response : Type :=
| DeleteRaise
| DeleteResp (status : Z).

(** The network and the operating system, asked at a given time (the
    number of questions asked before).  Nothing is assumed about the
    answers. *)
Record env : Type := {
  api_get : nat -> nat -> Z -> list_response;
  session_get : nat -> json -> get_response;
  api_delete : nat -> json -> delete_response;
  (** whether [open(path, 'wb')] succeeds *)
  open_wb : nat -> string -> bool
}.

Inductive level : Type := INFO | WARNING | ERROR.

(** The log lines of the program, without the text of the exception. *)
Inductive message : Type :=
| MsgFetchError (page : nat)
| MsgNoDownloadLink (uri : json)
| MsgSkipExisting (video_name : string)
| MsgDownloadFailed (video_name : string)
| MsgDeleted (uri : json)
| MsgDeleteStatus (uri : json) (status : Z)
| MsgDeleteError (uri : json)
| MsgProcessingError
| MsgComplete (processed errors : nat).

(** An item of the run: its page and its position on the page. *)
Definition item_id : Type := nat * nat.

(** What an observer of a run sees, in order: the requests, the progress
    updates and the log lines.  [DownloadCalled], [DownloadReturned] and
    [DeleteCalled] mark, in [process_videos], the call and the return of
    [self.download_video] and the call of [self.delete_video] for an
    item; they are what the statements about the order of the calls
    refer to. *)
Inductive event : Type :=
| ApiGet (page : nat)
| SessionGet (link : json)
| Progress (n : nat)
| ApiDelete (uri : json)
| Log (lv : level) (m : message)
| DownloadCalled (it : item_id) (link : json) (video_name : string)
| DownloadReturned (it : item_id) (video_name : string) (ok : bool)
| DeleteCalled (it : item_id) (uri : json).

(** The state a run changes: the time, the files (path to content) and
    the events so far. *)
Record world : Type := {
  clock : nat;
  fs : gmap string string;
  trace : list event
}.

(** *** The monad of the methods: state and exceptions *)

Definition M (A : Type) : Type := world -> outcome A * world.

Definition ret {A} (a : A) : M A := fun w => (Ret a, w).

Definition raise {A} (e : exn) : M A := fun w => (Raise e, w).

Definition bind {A B} (m : M A) (k : A -> M B) : M B :=
  fun w =>
    match m w with
    | (Ret a, w') => k a w'
    | (Raise e, w') => (Raise e, w')
    end.

(** [try: m except (those for which catches holds): handler] *)
Definition try_except {A} (catches : exn -> bool) (m : M A) (handler : M A) : M A :=
  fun w =>
    match m w with
    | (Ret a, w') => (Ret a, w')
    | (Raise e, w') => if catches e then handler w' else (Raise e, w')
    end.

(** [except Exception] *)
Definition any_exception (e : exn) : bool := true.

Definition lift {A} (o : outcome A) : M A := fun w => (o, w).

Declare Scope py_scope.
Delimit Scope py_scope with py.
Notation "x <- m ;; k" := (bind m (fun x => k))
  (at level 100, m at next level, right associativity) : py_scope.
Notation "m ;;; k" := (bind m (fun _ => k))
  (at level 100, right associativity) : py_scope.
Notation "x <~ o ;; k" := (obind o (fun x => k))
  (at level 100, o at next level, right associativity) : py_scope.
Local Open Scope py_scope.

(** the world after the events [evs] were observed *)
Definition extend (w : world) (evs : list event) : world :=
  {| clock := clock w; fs := fs w; trace := trace w ++ evs |}.

Definition emit (e : event) : M unit :=
  fun w => (Ret tt, extend w [e]).

Definition log (lv : level) (m : message) : M unit := emit (Log lv m).

(** the time of a question to the outside; the clock advances *)
Definition tick : M nat :=
  fun w => (Ret (clock w),
            {| clock := S (clock w); fs := fs w; trace := trace w |}).

(** [os.path.exists(path)] *)
Definition path_exists (path : string) : M bool :=
  fun w => (Ret (match fs w !! path with Some _ => true | None => false end), w).

(** [os.remove(path)] *)
Definition os_remove (path : string) : M unit :=
  fun w => (Ret tt,
            {| clock := clock w; fs := delete path (fs w); trace := trace w |}).

(** [f.write(chunk)] on a file opened at [path] *)
Definition file_write (path chunk : string) : M unit :=
  fun w =>
    let old := default ""%string (fs w !! path) in
    (Ret tt, {| clock := clock w;
                fs := <[path := String.append old chunk]> (fs w);
                trace := trace w |}).

(** [response.raise_for_status()] *)
Definition raise_for_status (status : Z) : M unit :=
  if (400 <=? status) && (status <? 600) then raise RequestException else ret tt.

Section Methods.
Variable cfg : config.
Variable net : env.

(** [open(path, 'wb')]: the file is created empty, or truncated. *)
Definition open_file (path : string) : M unit :=
  t <- tick ;;
  if open_wb net t path
  then fun w => (Ret tt, {| clock := clock w;
                            fs := <[path := ""%string]> (fs w);
                            trace := trace w |})
  else raise OSError.

(** **** [_get_videos] *)
Definition _get_videos (page : nat) : M json :=
  try_except any_exception
    (t <- tick ;;
     emit (ApiGet page) ;;;
     match api_get net t page (per_page cfg) with
     | ListRaise => raise RequestException
     | ListResp status body =>
         raise_for_status status ;;;
         match body with
         | None => raise ValueError
         | Some b => lift (dict_get b "data" (JArr []))
         end
     end)
    (log ERROR (MsgFetchError page) ;;;
     ret JNull).

(** **** [_get_download_link] *)

(** the expression [video['download'][0]['link']] *)
Definition download_link_of (video : json) : outcome json :=
  d <~ getitem video "download" ;;
  first <~ getitem0 d ;;
  getitem first "link".

Definition key_or_index_error (e : exn) : bool :=
  match e with
  | KeyError | IndexError => true
  | _ => false
  end.

Definition _get_download_link (video : json) : M json :=
  try_except key_or_index_error
    (lift (download_link_of video))
    (uri <- lift (dict_get video "uri" (JStr "unknown")) ;;
     log WARNING (MsgNoDownloadLink uri) ;;;
     ret JNull).

(** **** [download_video] *)

(** [os.path.join(self.download_dir, f"{video_name}.mp4")] *)
Definition file_path (video_name : string) : string :=
  PosixPath.join (download_dir cfg) (String.append video_name ".mp4").

(** [int(response.headers.get('content-length', 0))] *)
Definition total_size (h : header) : M Z :=
  match h with
  | HAbsent => ret 0
  | HInt n => ret n
  | HMalformed => raise ValueError
  end.

(** the loop over [response.iter_content(chunk_size=8192)] *)
Fixpoint write_chunks (path : string) (chunks : list string) (complete : bool)
  : M unit :=
  match chunks with
  | [] => if complete then ret tt else raise RequestException
  | chunk :: rest =>
      (if negb (String.eqb chunk "")
       then file_write path chunk ;;;
            emit (Progress (String.length chunk))
       else ret tt) ;;;
      write_chunks path rest complete
  end.

Definition download_video (download_link : json) (video_name : string) : M bool :=
  let file_path := file_path video_name in
  present <- path_exists file_path ;;
  if present then
    log INFO (MsgSkipExisting video_name) ;;;
    ret true
  else
    try_except any_exception
      (t <- tick ;;
       emit (SessionGet download_link) ;;;
       match session_get net t download_link with
       | GetRaise => raise RequestException
       | GetResp status content_length chunks complete =>
           raise_for_status status ;;;
           _ <- total_size content_length ;;
           open_file file_path ;;;
           write_chunks file_path chunks complete ;;;
           ret true
       end)
      (log ERROR (MsgDownloadFailed video_name) ;;;
       present <- path_exists file_path ;;
       (if present then os_remove file_path else ret tt) ;;;
       ret false).

(** **** [delete_video] *)
Definition delete_video (video_uri : json) : M bool :=
  try_except any_exception
    (t <- tick ;;
     emit (ApiDelete video_uri) ;;;
     match api_delete net t video_uri with
     | DeleteRaise => raise RequestException
     | DeleteResp status =>
         if status =? 204 then
           log INFO (MsgDeleted video_uri) ;;;
           ret true
         else
           log WARNING (MsgDeleteStatus video_uri status) ;;;
           ret false
     end)
    (log ERROR (MsgDeleteError video_uri) ;;;
     ret false).

(** **** [process_videos] *)

(** the counters [processed] and [errors] *)
Record stats : Type := {
  processed : nat;
  errors : nat
}.

Definition incr_processed (st : stats) : stats :=
  {| processed := S (processed st); errors := errors st |}.

Definition incr_errors (st : stats) : stats :=
  {| processed := processed st; errors := S (errors st) |}.

(** [datetime.fromisoformat(video['created_time'].replace('Z', '+00:00'))] *)
Definition created_time_of (video : json) : outcome Datetime.datetime :=
  c <~ getitem video "created_time" ;;
  s <~ replace c "Z" "+00:00" ;;
  Datetime.fromisoformat s.

(** [video.get('name', 'unnamed').replace('/', '_')] *)
Definition video_name_of (video : json) : outcome string :=
  n <~ dict_get video "name" (JStr "unnamed") ;;
  replace n "/" "_".

(** The body of the [try] statement of the loop over the videos of a
    page; [continue] is the return of the counters. *)
Definition process_video_body (year : Z) (it : item_id) (video : json)
           (st : stats) : M stats :=
  created_time <- lift (created_time_of video) ;;
  if negb (Datetime.year created_time =? year) then ret st
  else
    video_uri <- lift (getitem video "uri") ;;
    video_name <- lift (video_name_of video) ;;
    download_link <- _get_download_link video ;;
    if negb (truthy download_link) then ret (incr_errors st)
    else
      emit (DownloadCalled it download_link video_name) ;;;
      ok <- download_video download_link video_name ;;
      emit (DownloadReturned it video_name ok) ;;;
      if ok then
        emit (DeleteCalled it video_uri) ;;;
        deleted <- delete_video video_uri ;;
        if deleted then ret (incr_processed st)
        else ret (incr_errors st)
      else ret (incr_errors st).

(** One turn of the loop: the [try] statement with its handler. *)
Definition process_video (year : Z) (it : item_id) (video : json)
           (st : stats) : M stats :=
  try_except any_exception
    (process_video_body year it video st)
    (log ERROR MsgProcessingError ;;;
     ret (incr_errors st)).

(** [for video in videos: ...], from position [i] of page [page] *)
Fixpoint for_videos (year : Z) (page i : nat) (videos : list json)
         (st : stats) : M stats :=
  match videos with
  | [] => ret st
  | video :: rest =>
      st' <- process_video year (page, i) video st ;;
      for_videos year page (S i) rest st'
  end.

(** The states of the pagination loop. *)
Inductive loop_state : Type :=
| FetchingPage (page : nat) (st : stats)
| Done (st : stats).

(** [while True: ...], for at most [fuel] pages: the loop is left in
    [Done] by [break], and is still in [FetchingPage] when the pages
    allowed are used up. *)
Fixpoint pagination (fuel : nat) (year : Z) (page : nat) (st : stats)
  : M loop_state :=
  match fuel with
  | O => ret (FetchingPage page st)
  | S fuel' =>
      videos <- _get_videos page ;;
      if negb (truthy videos) then ret (Done st)
      else
        items <- lift (iter videos) ;;
        st' <- for_videos year page 0 items st ;;
        pagination fuel' year (S page) st'
  end.

Definition process_videos (fuel : nat) (year : Z) : M loop_state :=
  r <- pagination fuel year 1 {| processed := 0; errors := 0 |} ;;
  match r with
  | Done st =>
      log INFO (MsgComplete (processed st) (errors st)) ;;;
      ret r
  | FetchingPage _ _ => ret r
  end.

End Methods.

(** *** What the statements below speak about *)

(** the world after one question to the outside *)
Definition ticked (w : world) : world :=
  {| clock := S (clock w); fs := fs w; trace := trace w |}.

(** the events observed between [w] and a later world [w'] *)
Definition new_events (w w' : world) : list event :=
  drop (length (trace w)) (trace w').

(** What the [try] block of [_get_videos] evaluates to on the answer of
    the API. *)
Definition listing (r : list_response) : outcome json :=
  match r with
  | ListRaise => Raise RequestException
  | ListResp status body =>
      if (400 <=? status) && (status <? 600) then Raise RequestException
      else match body with
           | None => Raise ValueError
           | Some b => dict_get b "data" (JArr [])
           end
  end.

Definition raises {A} (o : outcome A) : Prop :=
  match o with
  | Raise _ => True
  | Ret _ => False
  end.

(** The connection or the streaming of a download fails: the request
    raises, the status is an error, the [content-length] header is not a
    number, the local file cannot be opened, or the body breaks off. *)
Definition transfer_fails (r : get_response) (opened : bool) : bool :=
  match r with
  | GetRaise => true
  | GetResp status content_length chunks complete =>
      ((400 <=? status) && (status <? 600))
      || match content_length with HMalformed => true | _ => false end
      || negb opened
      || negb complete
  end.

Definition body_of (r : get_response) : list string :=
  match r with
  | GetRaise => []
  | GetResp _ _ chunks _ => chunks
  end.

(** the bytes of a body: its chunks, one after the other *)
Definition content (chunks : list string) : string :=
  fold_right String.append ""%string chunks.

Definition is_session_get (e : event) : bool :=
  match e with
  | SessionGet _ => true
  | _ => false
  end.

Definition is_api_delete (e : event) : bool :=
  match e with
  | ApiDelete _ => true
  | _ => false
  end.

Definition is_api_get (e : event) : bool :=
  match e with
  | ApiGet _ => true
  | _ => false
  end.

Definition count (p : event -> bool) (evs : list event) : nat :=
  length (List.filter p evs).

(** The API accepted the deletion: status 204. *)
Definition delete_succeeds (r : delete_response) : bool :=
  match r with
  | DeleteResp status => status =? 204
  | DeleteRaise => false
  end.

(** the log line of [delete_video] *)
Definition delete_log (uri : json) (r : delete_response) : event :=
  match r with
  | DeleteRaise => Log ERROR (MsgDeleteError uri)
  | DeleteResp status =>
      if status =? 204 then Log INFO (MsgDeleted uri)
      else Log WARNING (MsgDeleteStatus uri status)
  end.

(** the progress updates of a body: one for each chunk that is not
    empty *)
Definition progress_of (chunks : list string) : list event :=
  flat_map (fun chunk =>
              if String.eqb chunk "" then []
              else [Progress (String.length chunk)]) chunks.

(** the status or the header of the answer stops the download before
    the local file is opened *)
Definition rejected (r : get_response) : bool :=
  match r with
  | GetRaise => true
  | GetResp status content_length _ _ =>
      ((400 <=? status) && (status <? 600))
      || match content_length with HMalformed => true | _ => false end
  end.

(** the events of a download that finds no file at its path *)
Definition transfer_events (link : json) (video_name : string)
           (r : get_response) (opened : bool) : list event :=
  SessionGet link
  :: (if rejected r || negb opened then [] else progress_of (body_of r))
  ++ (if transfer_fails r opened
      then [Log ERROR (MsgDownloadFailed video_name)] else []).

(** What the body of the loop decides about an item before it calls
    [download_video]: an expression raises, the year differs, there is
    no link (with the warning of [_get_download_link], or a link that is
    falsy), or the item is eligible. *)
Inductive verdict : Type :=
| Malformed (e : exn)
| OutOfYear
| NoLink (uri : json)
| FalsyLink
| Eligible (uri : json) (video_name : string) (link : json).

Definition classify (year : Z) (video : json) : verdict :=
  match created_time_of video with
  | Raise e => Malformed e
  | Ret created_time =>
      if negb (Datetime.year created_time =? year) then OutOfYear
      else
        match getitem video "uri", video_name_of video with
        | Raise e, _ => Malformed e
        | Ret _, Raise e => Malformed e
        | Ret uri, Ret video_name =>
            match download_link_of video with
            | Raise e =>
                if key_or_index_error e then NoLink uri else Malformed e
            | Ret link =>
                if truthy link then Eligible uri video_name link
                else FalsyLink
            end
        end
  end.

(** the events that are neither a mark of [process_videos] nor a
    deletion request *)
Definition other (e : event) : bool :=
  match e with
  | DownloadReturned _ _ _ | DeleteCalled _ _ | ApiDelete _ => false
  | _ => true
  end.

(** the requests other than deletions, the progress updates and the log
    lines *)
Definition low (e : event) : bool :=
  match e with
  | ApiGet _ | SessionGet _ | Progress _ | Log _ _ => true
  | _ => false
  end.

(** A sequence of events in which a name that was downloaded is not
    downloaded again: once a download for a name returned success, every
    later call of [download_video] for that name logs the skip and
    returns success at once, and the deletion of that item is called and
    requested. *)
Definition skips_known_names (evs : list event) : Prop :=
  forall pre it2 link2 name post,
    evs = pre ++ DownloadCalled it2 link2 name :: post ->
    (exists it1, In (DownloadReturned it1 name true) pre) ->
    exists uri rest,
      post = Log INFO (MsgSkipExisting name)
             :: DownloadReturned it2 name true
             :: DeleteCalled it2 uri :: ApiDelete uri :: rest.

(** the calls of [download_video] *)
Definition is_download_called (e : event) : bool :=
  match e with
  | DownloadCalled _ _ _ => true
  | _ => false
  end.

(** The files [f] hold a file for every name whose download returned
    success in [evs]. *)
Definition files_of_returned (cfg : config) (f : gmap string string)
           (evs : list event) : Prop :=
  forall it name,
    In (DownloadReturned it name true) evs ->
    is_Some (f !! file_path cfg name).

(** A sequence of events in which deletion is gated on download: a
    deletion request comes only right after the call of [delete_video]
    for an item, which comes only right after a download of that item
    returned success, and each such return is followed by that call and
    that request. *)
Inductive gated : list event -> Prop :=
| gated_nil : gated []
| gated_other e evs :
    other e = true -> gated evs -> gated (e :: evs)
| gated_failed it name evs :
    gated evs -> gated (DownloadReturned it name false :: evs)
| gated_deleted it name uri evs :
    gated evs ->
    gated (DownloadReturned it name true :: DeleteCalled it uri
           :: ApiDelete uri :: evs).

(** Every listing the API returns can be looped over: its [data] is a
    list (or a dictionary or a string), or is falsy. *)
Definition listings_iterable (cfg : config) (net : env) : Prop :=
  forall t page data,
    listing (api_get net t page (per_page cfg)) = Ret data ->
    truthy data = true ->
    exists items, iter data = Ret items.

(** The creation year of the item is, or is not, the target year. *)
Definition in_year (year : Z) (video : json) : Prop :=
  exists created_time,
    created_time_of video = Ret created_time
    /\ Datetime.year created_time = year.

Definition out_of_year (year : Z) (video : json) : Prop :=
  exists created_time,
    created_time_of video = Ret created_time
    /\ Datetime.year created_time <> year.

(** The item has an identifier and a display name that gives a stem. *)
Definition described (video uri : json) (video_name : string) : Prop :=
  getitem video "uri" = Ret uri /\ video_name_of video = Ret video_name.

(** The item has a first download entry with a link that is truthy. *)
Definition has_link (video link : json) : Prop :=
  download_link_of video = Ret link /\ truthy link = true.

(** The item has no download entry, or one without a link, or a link
    that is falsy. *)
Definition missing_link (video : json) : Prop :=
  match download_link_of video with
  | Ret link => truthy link = false
  | Raise e => key_or_index_error e = true
  end.

(** *** Concrete runs *)

(** a listed video as the API describes it *)
Definition video (uri name created_time link : string) : json :=
  JObj [("uri", JStr uri); ("name", JStr name);
        ("created_time", JStr created_time);
        ("download", JArr [JObj [("link", JStr link)]])].

Definition downloads : config :=
  {| download_dir := "downloads"; per_page := 100 |}.

(** nothing requested yet, no file, nothing observed *)
Definition fresh : world := {| clock := 0; fs := ∅; trace := [] |}.

(** the answer of the API for a list of pages, numbered from 1; a page
    past the end is empty *)
Definition serve (pages : list (list json)) (page : nat) : list_response :=
  ListResp 200 (Some (JObj [("data", JArr (nth (page - 1) pages []))])).

(** the body served for a link, in three chunks, one of them empty *)
Definition served (link : json) : get_response :=
  match link with
  | JStr url => GetResp 200 HAbsent ["bytes of "; ""; url] true
  | _ => GetRaise
  end.

(** a network on which every request succeeds *)
Definition healthy (pages : list (list json)) : env :=
  {| api_get := fun _ page _ => serve pages page;
     session_get := fun _ link => served link;
     api_delete := fun _ _ => DeleteResp 204;
     open_wb := fun _ _ => true |}.

(** the download requested at time [t0] breaks off after one chunk;
    everything else succeeds *)
Definition breaks_at (t0 : nat) (pages : list (list json)) : env :=
  {| api_get := fun _ page _ => serve pages page;
     session_get := fun t link =>
       if Nat.eqb t t0 then GetResp 200 (HInt 64) ["bytes"] false
       else served link;
     api_delete := fun _ _ => DeleteResp 204;
     open_wb := fun _ _ => true |}.

(** the API refuses every deletion *)
Definition refuses_delete (pages : list (list json)) : env :=
  {| api_get := fun _ page _ => serve pages page;
     session_get := fun _ link => served link;
     api_delete := fun _ _ => DeleteResp 403;
     open_wb := fun _ _ => true |}.

Definition first_ab : json :=
  video "/videos/1" "a/b" "2022-12-31T23:59:59Z" "https://cdn/1".
Definition second_ab : json :=
  video "/videos/2" "a/b" "2022-03-04T05:06:07Z" "https://cdn/2".
Definition next_year : json :=
  video "/videos/3" "c" "2023-01-01T00:00:00Z" "https://cdn/3".
Definition no_link : json :=
  JObj [("uri", JStr "/videos/4"); ("name", JStr "d");
        ("created_time", JStr "2022-06-01T00:00:00Z"); ("download", JArr [])].
Definition bad_date : json :=
  video "/videos/5" "e" "yesterday" "https://cdn/5".
Definition no_name : json :=
  JObj [("uri", JStr "/videos/6");
        ("created_time", JStr "2022-06-01T00:00:00Z");
        ("download", JArr [JObj [("link", JStr "https://cdn/6")]])].
Definition empty_name : json :=
  video "/videos/7" "" "2022-06-01T00:00:00Z" "https://cdn/7".

Definition zero : stats := {| processed := 0; errors := 0 |}.

(** the listing itself fails *)
Definition listing_down : env :=
  {| api_get := fun _ _ _ => ListResp 500 None;
     session_get := fun _ _ => GetRaise;
     api_delete := fun _ _ => DeleteRaise;
     open_wb := fun _ _ => true |}.

(** The second half of the skip rule, read as a bound on the requests:
    two successive calls with the same target path send at most one
    download request. *)
Definition transfers_at_most_once : Prop :=
  forall cfg net link1 name1 link2 name2 w,
    file_path cfg name1 = file_path cfg name2 ->
    let r1 := download_video cfg net link1 name1 w in
    let r2 := download_video cfg net link2 name2 (snd r1) in
    (count is_session_get (new_events w (snd r2)) <= 1)%nat.

(** Of two eligible items with the same sanitized name on a page, the
    second is always skipped and deleted: its download returns success,
    no request is sent for its link, and its deletion is requested. *)
Definition same_name_always_skipped : Prop :=
  forall cfg net year page v1 v2 uri1 uri2 name link1 link2 st w,
    classify year v1 = Eligible uri1 name link1 ->
    classify year v2 = Eligible uri2 name link2 ->
    link1 <> link2 ->
    let evs :=
      new_events w (snd (for_videos cfg net year page 0 [v1; v2] st w)) in
    In (DownloadReturned (page, 1%nat) name true) evs
    /\ ~ In (SessionGet link2) evs
    /\ In (ApiDelete uri2) evs.

(** An empty display name gets the placeholder. *)
Definition empty_name_gets_placeholder : Prop :=
  forall video,
    getitem video "name" = Ret (JStr "") ->
    video_name_of video = Ret "unnamed"%string.

(** *** Start-up: [_validate_env_vars], [_create_session], [__init__] and
    the main block *)

(** The process environment, as [os.getenv] sees it once [load_dotenv()]
    has run, and the one answer of the operating system that [__init__]
    asks for: whether [os.makedirs(path, exist_ok=True)] succeeds. *)
Record host : Type := {
  environ : gmap string string;
  makedirs : string -> bool
}.

Definition required_vars : list string :=
  ["VIMEO_TOKEN"; "VIMEO_KEY"; "VIMEO_SECRET"]%string.

(** [not os.getenv(var)]: the variable is unset, or set to the empty
    string *)
Definition unset (environ : gmap string string) (var : string) : bool :=
  match environ !! var with
  | None => true
  | Some v => String.eqb v ""
  end.

(** [', '.join(l)] *)
Fixpoint join_comma (l : list string) : string :=
  match l with
  | [] => ""%string
  | [x] => x
  | x :: rest => String.append x (String.append ", " (join_comma rest))
  end.

(** What can end the construction of the manager: the [EnvironmentError]
    of [_validate_env_vars] with its message, the [ValueError] of [int]
    on the text it was given, the [OSError] of [os.makedirs]. *)
Inductive startup_error : Type :=
| EnvironmentError (message : string)
| IntValueError (literal : string)
| MakedirsError (path : string).

(** [[var for var in required_vars if not os.getenv(var)]] *)
Definition missing_vars (environ : gmap string string) : list string :=
  List.filter (unset environ) required_vars.

Definition _validate_env_vars (environ : gmap string string)
  : startup_error + unit :=
  match missing_vars environ with
  | [] => inr tt
  | missing =>
      inl (EnvironmentError
             (String.append "Missing required environment variables: "
                (join_comma missing)))
  end.

(** [Retry(total=..., backoff_factor=1, status_forcelist=[...])] *)
Record retry : Type := {
  total : Z;
  backoff_factor : Z;
  status_forcelist : list Z
}.

(** a session with one adapter mounted *)
Record session : Type := {
  mount_prefix : string;
  max_retries_of : retry
}.

Definition _create_session (max_retries : Z) : session :=
  {| mount_prefix := "https://";
     max_retries_of :=
       {| total := max_retries; backoff_factor := 1;
          status_forcelist := [429; 500; 502; 503; 504] |} |}.

(** [vimeo.VimeoClient(token=..., key=..., secret=..., token_type='bearer')] *)
Record client : Type := {
  token : option string;
  key : option string;
  secret : option string
}.

(** the attributes of a [VimeoManager] *)
Record manager : Type := {
  settings : config;
  max_retries : Z;
  http_session : session;
  vimeo_client : client
}.

(** [int(os.getenv(var, default))] for an integer [default]; [int] is
    Python's conversion of a string, about which nothing is assumed. *)
Definition getenv_int (int : string -> outcome Z)
           (environ : gmap string string) (var : string) (default : Z)
  : startup_error + Z :=
  match environ !! var with
  | None => inr default
  | Some v =>
      match int v with
      | Ret n => inr n
      | Raise _ => inl (IntValueError v)
      end
  end.

Definition __init__ (int : string -> outcome Z) (h : host)
  : startup_error + manager :=
  match _validate_env_vars (environ h) with
  | inl e => inl e
  | inr _ =>
      let download_dir :=
        default "downloads"%string (environ h !! "DOWNLOAD_DIR"%string) in
      match getenv_int int (environ h) "PER_PAGE" 100 with
      | inl e => inl e
      | inr per_page =>
          match getenv_int int (environ h) "MAX_RETRIES" 3 with
          | inl e => inl e
          | inr max_retries =>
              let session := _create_session max_retries in
              let vimeo_client :=
                {| token := environ h !! "VIMEO_TOKEN"%string;
                   key := environ h !! "VIMEO_KEY"%string;
                   secret := environ h !! "VIMEO_SECRET"%string |} in
              if makedirs h download_dir
              then inr {| settings := {| download_dir := download_dir;
                                         per_page := per_page |};
                          max_retries := max_retries;
                          http_session := session;
                          vimeo_client := vimeo_client |}
              else inl (MakedirsError download_dir)
          end
      end
  end.

(** What the handler of the main block logs as a critical error: a
    failure of the construction, or an exception of the run. *)
Inductive failure : Type :=
| StartupFailed (e : startup_error)
| RunFailed (e : exn).

(** The main block: [VimeoManager()], then [process_videos(year=2022)];
    [inl f] is the return through the handler, after the critical error
    [f] was logged. *)
Definition main (int : string -> outcome Z) (h : host) (net : env)
           (fuel : nat) : world -> (failure + loop_state) * world :=
  fun w =>
    match __init__ int h with
    | inl e => (inl (StartupFailed e), w)
    | inr m =>
        match process_videos (settings m) net fuel 2022 w with
        | (Ret r, w') => (inr r, w')
        | (Raise e, w') => (inl (RunFailed e), w')
        end
    end.

(** *** What the further statements speak about *)

(** the events [download_video] can give rise to *)
Definition of_transfer (e : event) : bool :=
  match e with
  | SessionGet _ | Progress _ => true
  | Log INFO (MsgSkipExisting _) | Log ERROR (MsgDownloadFailed _) => true
  | _ => false
  end.

(** the log line of an accepted deletion *)
Definition is_deleted_log (e : event) : bool :=
  match e with
  | Log INFO (MsgDeleted _) => true
  | _ => false
  end.

(** the returns of [download_video] with success *)
Definition is_returned_ok (e : event) : bool :=
  match e with
  | DownloadReturned _ _ true => true
  | _ => false
  end.

(** the bytes reported to the progress bar *)
Fixpoint progress_total (evs : list event) : nat :=
  match evs with
  | [] => 0
  | Progress n :: rest => n + progress_total rest
  | _ :: rest => progress_total rest
  end.

(** the pages asked for, in order *)
Fixpoint pages_requested (evs : list event) : list nat :=
  match evs with
  | [] => []
  | ApiGet page :: rest => page :: pages_requested rest
  | _ :: rest => pages_requested rest
  end.

(** the item passes the year filter or raises before it: it is counted *)
Definition counted (year : Z) (video : json) : bool :=
  match classify year video with
  | OutOfYear => false
  | _ => true
  end.

(** *** Concrete hosts and items for the further statements *)

(** a conversion for the concrete runs: it reads the plain decimal
    numerals and raises [ValueError] on any other text *)
Definition decimal (s : string) : outcome Z :=
  match Datetime.digits s with
  | Some n => Ret n
  | None => Raise ValueError
  end.

(** the three credentials are set, nothing else is, and the directory
    can be made *)
Definition configured : host :=
  {| environ :=
       <["VIMEO_TOKEN"%string := "t"%string]>
         (<["VIMEO_KEY"%string := "k"%string]>
            (<["VIMEO_SECRET"%string := "s"%string]> ∅));
     makedirs := fun _ => true |}.

(** the key is set, but to the empty string *)
Definition empty_key : host :=
  {| environ := <["VIMEO_KEY"%string := ""%string]> (environ configured);
     makedirs := fun _ => true |}.

(** [PER_PAGE] is not a number *)
Definition per_page_ten : host :=
  {| environ := <["PER_PAGE"%string := "ten"%string]> (environ configured);
     makedirs := fun _ => true |}.

(** no directory can be made *)
Definition read_only : host :=
  {| environ := environ configured; makedirs := fun _ => false |}.

(** an item whose download entry has the empty string as its link *)
Definition empty_link : json :=
  video "/videos/8" "f" "2022-06-01T00:00:00Z" "".


(** *** Proof steps *)

Ltac mred :=
  cbv [bind ret raise lift emit log tick try_except any_exception
       path_exists os_remove file_write raise_for_status open_file
       total_size];
  cbn [fst snd clock fs trace extend ticked].

Ltac world_eq :=
  unfold extend, ticked; cbn [clock fs trace fst snd];
  rewrite <- ?app_assoc; cbn [app]; rewrite ?app_nil_r;
  try reflexivity.

Lemma extend_nil w : extend w [] = w.
Proof. destruct w; unfold extend; cbn. by rewrite app_nil_r. Qed.

Lemma extend_extend w a b : extend (extend w a) b = extend w (a ++ b).
Proof. unfold extend; cbn. by rewrite app_assoc. Qed.

Lemma new_events_extend w evs : new_events w (extend w evs) = evs.
Proof. unfold new_events, extend; cbn. by rewrite drop_app_length. Qed.

Lemma new_events_ticked_extend w evs : new_events w (extend (ticked w) evs) = evs.
Proof. unfold new_events, extend, ticked; cbn. by rewrite drop_app_length. Qed.

(** **** Gated sequences *)

Lemma gated_quiet_app evs rest :
  Forall (fun e => other e = true) evs -> gated rest -> gated (evs ++ rest).
Proof.
  induction 1 as [|e evs He _ IH]; intros Hrest; cbn; [done|].
  by apply gated_other; [|apply IH].
Qed.

Lemma gated_app evs rest : gated evs -> gated rest -> gated (evs ++ rest).
Proof.
  induction 1 as [|e evs He _ IH|it name evs _ IH|it name uri evs _ IH];
    intros Hrest; cbn.
  - done.
  - by apply gated_other; [|apply IH].
  - by apply gated_failed, IH.
  - by apply gated_deleted, IH.
Qed.

Lemma gated_delete_called evs it uri :
  gated evs -> In (DeleteCalled it uri) evs ->
  exists name, In (DownloadReturned it name true) evs.
Proof.
  induction 1 as [|e evs He _ IH|it' name' evs _ IH|it' name' uri' evs _ IH];
    cbn.
  - done.
  - intros [->|Hin]; [discriminate|].
    destruct (IH Hin) as [name Hname]. eauto.
  - intros [[=]|Hin]. destruct (IH Hin) as [name Hname]. eauto.
  - intros [[=]|[[= -> ->]|[[=]|Hin]]]; [by eauto|].
    destruct (IH Hin) as [name Hname]. eauto 6.
Qed.

Lemma gated_download_returned evs it name :
  gated evs -> In (DownloadReturned it name true) evs ->
  exists uri, In (DeleteCalled it uri) evs.
Proof.
  induction 1 as [|e evs He _ IH|it' name' evs _ IH|it' name' uri' evs _ IH];
    cbn.
  - done.
  - intros [->|Hin]; [discriminate|].
    destruct (IH Hin) as [uri Huri]. eauto.
  - intros [[=]|Hin]. destruct (IH Hin) as [uri Huri]. eauto.
  - intros [[= -> ->]|[[=]|[[=]|Hin]]]; [by eauto|].
    destruct (IH Hin) as [uri Huri]. eauto 6.
Qed.

Lemma gated_delete_called_before evs k it uri :
  gated evs -> evs !! k = Some (DeleteCalled it uri) ->
  exists j name, S j = k /\ evs !! j = Some (DownloadReturned it name true).
Proof.
  intros Hg. revert k.
  induction Hg as [|e evs He _ IH|it' name' evs _ IH|it' name' uri' evs _ IH];
    intros k.
  - done.
  - destruct k as [|k]; cbn.
    + intros [= ->]. discriminate.
    + intros Hk. destruct (IH k Hk) as (j & name & <- & Hj).
      by exists (S j), name.
  - destruct k as [|k]; cbn; [done|].
    intros Hk. destruct (IH k Hk) as (j & name & <- & Hj).
    by exists (S j), name.
  - destruct k as [|[|[|k]]]; cbn; try done.
    + intros [= -> ->]. by exists 0%nat, name'.
    + intros Hk. destruct (IH k Hk) as (j & name & <- & Hj).
      by exists (S (S (S j))), name.
Qed.

Lemma gated_api_delete evs k uri :
  gated evs -> evs !! k = Some (ApiDelete uri) ->
  exists j it name, k = S (S j)
    /\ evs !! j = Some (DownloadReturned it name true)
    /\ evs !! S j = Some (DeleteCalled it uri).
Proof.
  intros Hg. revert k.
  induction Hg as [|e evs He _ IH|it' name' evs _ IH|it' name' uri' evs _ IH];
    intros k.
  - done.
  - destruct k as [|k]; cbn.
    + intros [= ->]. discriminate.
    + intros Hk. destruct (IH k Hk) as (j & it & name & -> & Hj & Hj').
      by exists (S j), it, name.
  - destruct k as [|k]; cbn; [done|].
    intros Hk. destruct (IH k Hk) as (j & it & name & -> & Hj & Hj').
    by exists (S j), it, name.
  - destruct k as [|[|[|k]]]; cbn; try done.
    + intros [= ->]. by exists 0%nat, it', name'.
    + intros Hk. destruct (IH k Hk) as (j & it & name & -> & Hj & Hj').
      by exists (S (S (S j))), it, name.
Qed.

Lemma low_other evs :
  Forall (fun e => low e = true) evs -> Forall (fun e => other e = true) evs.
Proof. intros H. eapply Forall_impl; [exact H|]. by intros []. Qed.

Lemma progress_of_low chunks :
  Forall (fun e => low e = true) (progress_of chunks).
Proof.
  induction chunks as [|chunk rest IH]; [by constructor|].
  change (progress_of (chunk :: rest))
    with ((if String.eqb chunk "" then []
           else [Progress (String.length chunk)]) ++ progress_of rest)%list.
  destruct (String.eqb chunk ""); [done|]. by constructor.
Qed.

Lemma transfer_events_low link name r opened :
  Forall (fun e => low e = true) (transfer_events link name r opened).
Proof.
  unfold transfer_events. constructor; [done|].
  apply Forall_app. split.
  - destruct (rejected r || negb opened); [constructor|apply progress_of_low].
  - destruct (transfer_fails r opened); repeat constructor.
Qed.

Section Properties.
Variable cfg : config.
Variable net : env.

(** **** The three requests, in closed form *)

Lemma _get_videos_eq page w :
  _get_videos cfg net page w =
  match listing (api_get net (clock w) page (per_page cfg)) with
  | Ret data => (Ret data, extend (ticked w) [ApiGet page])
  | Raise _ =>
      (Ret JNull,
       extend (ticked w) [ApiGet page; Log ERROR (MsgFetchError page)])
  end.
Proof.
  unfold _get_videos, listing. mred.
  destruct (api_get net (clock w) page (per_page cfg)) as [|status body].
  - by rewrite extend_extend.
  - destruct ((400 <=? status) && (status <? 600)); mred.
    + by rewrite extend_extend.
    + destruct body as [b|]; mred.
      * destruct (dict_get b "data" (JArr [])); [done|].
        by rewrite extend_extend.
      * by rewrite extend_extend.
Qed.

Lemma delete_video_eq uri w :
  delete_video net uri w =
  (Ret (delete_succeeds (api_delete net (clock w) uri)),
   extend (ticked w) [ApiDelete uri; delete_log uri (api_delete net (clock w) uri)]).
Proof.
  unfold delete_video, delete_succeeds, delete_log. mred.
  destruct (api_delete net (clock w) uri) as [|status].
  - by rewrite extend_extend.
  - destruct (status =? 204); mred; by rewrite extend_extend.
Qed.

Lemma append_nil_l (b : string) : String.append "" b = b.
Proof. reflexivity. Qed.

Lemma append_cons (x : ascii) (a b : string) :
  String.append (String x a) b = String x (String.append a b).
Proof. reflexivity. Qed.

Lemma append_assoc (a b c : string) :
  String.append (String.append a b) c = String.append a (String.append b c).
Proof.
  induction a as [|x a IH]; [done|].
  by rewrite !append_cons, IH.
Qed.

Lemma append_empty_r (a : string) : String.append a "" = a.
Proof.
  induction a as [|x a IH]; [done|].
  by rewrite append_cons, IH.
Qed.

(** **** [download_video], in closed form *)

Lemma write_chunks_eq path chunks complete w c :
  fs w !! path = Some c ->
  write_chunks path chunks complete w =
  (if complete then Ret tt else Raise RequestException,
   {| clock := clock w;
      fs := <[path := String.append c (content chunks)]> (fs w);
      trace := trace w ++ progress_of chunks |}).
Proof.
  revert w c. induction chunks as [|chunk rest IH]; intros w c Hc.
  - cbn [write_chunks content fold_right progress_of flat_map].
    rewrite append_empty_r, (insert_id _ _ _ Hc), app_nil_r.
    destruct w, complete; reflexivity.
  - cbn [write_chunks]. unfold bind at 1.
    change (content (chunk :: rest))
      with (String.append chunk (content rest)).
    change (progress_of (chunk :: rest))
      with ((if String.eqb chunk "" then []
             else [Progress (String.length chunk)]) ++ progress_of rest)%list.
    destruct (String.eqb_spec chunk "") as [->|Hne]; cbn [negb]; mred.
    + rewrite (IH w c Hc). reflexivity.
    + rewrite Hc; cbn [default].
      erewrite IH by (cbn [fs]; apply lookup_insert_eq).
      cbn [clock fs trace extend id]. rewrite insert_insert_eq, append_assoc.
      by rewrite <- app_assoc.
Qed.

Lemma download_video_present link name w c :
  fs w !! file_path cfg name = Some c ->
  download_video cfg net link name w =
  (Ret true, extend w [Log INFO (MsgSkipExisting name)]).
Proof. intros Hc. unfold download_video. mred. by rewrite Hc. Qed.

Lemma download_video_absent link name w :
  fs w !! file_path cfg name = None ->
  let r := session_get net (clock w) link in
  let opened := open_wb net (S (clock w)) (file_path cfg name) in
  download_video cfg net link name w =
  (Ret (negb (transfer_fails r opened)),
   {| clock := if rejected r then S (clock w) else S (S (clock w));
      fs := if transfer_fails r opened then fs w
            else <[file_path cfg name := content (body_of r)]> (fs w);
      trace := trace w ++ transfer_events link name r opened |}).
Proof.
  intros Hc r opened. unfold download_video. mred. rewrite Hc.
  subst r opened. unfold transfer_events.
  destruct (session_get net (clock w) link) as [|status cl chunks complete].
  { mred. rewrite Hc. world_eq. }
  cbn [rejected transfer_fails body_of].
  destruct ((400 <=? status) && (status <? 600)); cbn [orb].
  { mred. rewrite Hc. world_eq. }
  destruct cl; mred; cbn [orb negb].
  3: { rewrite Hc. world_eq. }
  all: destruct (open_wb net (S (clock w)) (file_path cfg name));
    cbn [orb negb]; mred.
  all: try solve [rewrite Hc; world_eq].
  all: erewrite write_chunks_eq by (cbn [fs]; apply lookup_insert_eq).
  all: rewrite append_nil_l; cbn [fs clock trace]; rewrite insert_insert_eq.
  all: destruct complete; cbn [negb app].
  all: world_eq.
  all: rewrite lookup_insert_eq; cbn [clock fs trace].
  all: by rewrite delete_insert_eq, (delete_id _ _ Hc).
Qed.

(** **** [_get_download_link] and the loop body, in closed form *)

Lemma getitem_dict_get video k x default :
  getitem video k = Ret x -> dict_get video k default = Ret x.
Proof.
  destruct video; cbn; try discriminate.
  destruct (assoc k items); [done|discriminate].
Qed.

Lemma download_link_of_caught video e :
  download_link_of video = Raise e -> key_or_index_error e = true ->
  exists items, video = JObj items.
Proof.
  destruct video; cbn; try (intros [= <-]; discriminate).
  eauto.
Qed.

Lemma _get_download_link_eq video w uri :
  getitem video "uri" = Ret uri ->
  _get_download_link video w =
  match download_link_of video with
  | Ret link => (Ret link, w)
  | Raise e =>
      if key_or_index_error e
      then (Ret JNull, extend w [Log WARNING (MsgNoDownloadLink uri)])
      else (Raise e, w)
  end.
Proof.
  intros Huri. unfold _get_download_link. mred.
  destruct (download_link_of video) as [link|e]; [done|].
  destruct (key_or_index_error e); [|done].
  by rewrite (getitem_dict_get _ _ _ _ Huri).
Qed.

Lemma download_video_total link name w :
  exists ok w', download_video cfg net link name w = (Ret ok, w').
Proof.
  destruct (fs w !! file_path cfg name) as [c|] eqn:Hc.
  - rewrite (download_video_present _ _ _ _ Hc). eauto.
  - rewrite (download_video_absent _ _ _ Hc). eauto.
Qed.

Lemma process_video_eq year it video st w :
  process_video cfg net year it video st w =
  match classify year video with
  | Malformed _ =>
      (Ret (incr_errors st), extend w [Log ERROR MsgProcessingError])
  | OutOfYear => (Ret st, w)
  | NoLink uri =>
      (Ret (incr_errors st), extend w [Log WARNING (MsgNoDownloadLink uri)])
  | FalsyLink => (Ret (incr_errors st), w)
  | Eligible uri name link =>
      match download_video cfg net link name
              (extend w [DownloadCalled it link name]) with
      | (Ret true, w') =>
          (Ret (if delete_succeeds (api_delete net (clock w') uri)
                then incr_processed st else incr_errors st),
           extend (ticked w')
                  [DownloadReturned it name true; DeleteCalled it uri;
                   ApiDelete uri;
                   delete_log uri (api_delete net (clock w') uri)])
      | (Ret false, w') =>
          (Ret (incr_errors st), extend w' [DownloadReturned it name false])
      | (Raise _, w') =>
          (Ret (incr_errors st), extend w' [Log ERROR MsgProcessingError])
      end
  end.
Proof.
  unfold process_video, process_video_body, classify.
  unfold try_except at 1. unfold bind at 1. unfold lift at 1.
  destruct (created_time_of video) as [dt|e]; [|done].
  destruct (negb (Datetime.year dt =? year)); [done|].
  unfold bind at 1. unfold lift at 1.
  destruct (getitem video "uri") as [uri|e] eqn:Huri; [|done].
  unfold bind at 1. unfold lift at 1.
  destruct (video_name_of video) as [name|e]; [|done].
  unfold bind at 1. rewrite (_get_download_link_eq _ _ _ Huri).
  destruct (download_link_of video) as [link|e].
  2: { destruct (key_or_index_error e); done. }
  destruct (truthy link); cbn [negb]; [|done].
  unfold bind at 1. unfold emit at 1.
  unfold bind at 1.
  destruct (download_video cfg net link name
              (extend w [DownloadCalled it link name]))
    as [[ok|e] w'] eqn:Hd; [|done].
  unfold bind at 1. unfold emit at 1.
  destruct ok; [|done].
  unfold bind at 1. unfold emit at 1.
  unfold bind at 1. rewrite delete_video_eq.
  cbn [clock extend ticked fs trace any_exception].
  destruct (delete_succeeds (api_delete net (clock w') uri)); mred; world_eq.
Qed.

Lemma process_video_total year it video st w :
  exists st' w', process_video cfg net year it video st w = (Ret st', w').
Proof.
  rewrite process_video_eq.
  destruct (classify year video); eauto.
  destruct (download_video cfg net link video_name _) as [[[|]|] ?]; eauto.
Qed.

Lemma for_videos_total year page i videos st w :
  exists st' w', for_videos cfg net year page i videos st w = (Ret st', w').
Proof.
  revert i st w. induction videos as [|video rest IH]; intros i st w.
  - cbn. eauto.
  - cbn [for_videos]. unfold bind.
    destruct (process_video_total year (page, i) video st w)
      as (st1 & w1 & ->).
    apply IH.
Qed.

(** **** The events of a run are gated *)

Lemma new_events_app w w' seg :
  trace w' = trace w ++ seg -> new_events w w' = seg.
Proof. unfold new_events. intros ->. apply drop_app_length. Qed.

Lemma download_video_events link name w :
  exists seg,
    trace (snd (download_video cfg net link name w)) = trace w ++ seg
    /\ Forall (fun e => low e = true) seg.
Proof.
  destruct (fs w !! file_path cfg name) as [c|] eqn:Hc.
  - rewrite (download_video_present _ _ _ _ Hc). cbn.
    eexists; split; [done|]. by repeat constructor.
  - rewrite (download_video_absent _ _ _ Hc). cbn.
    eexists; split; [done|]. apply transfer_events_low.
Qed.

Lemma process_video_events year it video st w :
  exists seg,
    trace (snd (process_video cfg net year it video st w)) = trace w ++ seg
    /\ gated seg.
Proof.
  rewrite process_video_eq.
  destruct (classify year video) as [e| |uri| |uri name link].
  - eexists; split; [done|]. by repeat constructor.
  - exists []. split; [by rewrite app_nil_r|constructor].
  - eexists; split; [done|]. by repeat constructor.
  - exists []. split; [by rewrite app_nil_r|constructor].
  - destruct (download_video_events link name
                (extend w [DownloadCalled it link name]))
      as (seg & Hseg & Hq%low_other).
    destruct (download_video cfg net link name _) as [[[|]|e] w'];
      cbn [fst snd trace extend ticked] in *;
      rewrite Hseg, <- !app_assoc;
      (eexists; split; [done|]); cbn [app];
      (apply gated_other; [done|]); apply gated_quiet_app; try done.
    + apply gated_deleted. apply gated_other; [|constructor].
      unfold delete_log. destruct (api_delete net (clock w') uri); [done|].
      by destruct (status =? 204).
    + by repeat constructor.
    + by repeat constructor.
Qed.

Lemma for_videos_events year page i videos st w :
  exists seg,
    trace (snd (for_videos cfg net year page i videos st w)) = trace w ++ seg
    /\ gated seg.
Proof.
  revert i st w. induction videos as [|video rest IH]; intros i st w.
  - exists []. split; [by rewrite app_nil_r|constructor].
  - cbn [for_videos]. unfold bind.
    destruct (process_video_events year (page, i) video st w)
      as (seg1 & Hseg1 & Hg1).
    destruct (process_video_total year (page, i) video st w)
      as (st1 & w1 & Heq).
    rewrite Heq in *. cbn in Hseg1.
    destruct (IH (S i) st1 w1) as (seg2 & Hseg2 & Hg2).
    exists (seg1 ++ seg2). split; [|by apply gated_app].
    by rewrite Hseg2, Hseg1, app_assoc.
Qed.

Lemma _get_videos_events page w :
  exists data seg,
    fst (_get_videos cfg net page w) = Ret data
    /\ trace (snd (_get_videos cfg net page w)) = trace w ++ seg
    /\ Forall (fun e => other e = true) seg.
Proof.
  rewrite _get_videos_eq.
  destruct (listing _); cbn; do 2 eexists; (split; [done|]);
    (split; [done|]); by repeat constructor.
Qed.

Lemma pagination_events fuel year page st w :
  exists seg,
    trace (snd (pagination cfg net fuel year page st w)) = trace w ++ seg
    /\ gated seg.
Proof.
  revert page st w. induction fuel as [|fuel IH]; intros page st w.
  - exists []. split; [by rewrite app_nil_r|constructor].
  - cbn [pagination]. unfold bind at 1.
    destruct (_get_videos_events page w) as (data & seg0 & Hd & Hseg0 & Hq).
    destruct (_get_videos cfg net page w) as [o w0]. cbn in Hd, Hseg0.
    subst o.
    destruct (truthy data); cbn [negb].
    2: { exists seg0. split; [done|].
         rewrite <- (app_nil_r seg0). by apply gated_quiet_app; [|constructor]. }
    unfold bind at 1. unfold lift at 1.
    destruct (iter data) as [items|e].
    2: { exists seg0. split; [done|].
         rewrite <- (app_nil_r seg0). by apply gated_quiet_app; [|constructor]. }
    unfold bind at 1.
    destruct (for_videos_events year page 0 items st w0) as (seg1 & Hseg1 & Hg1).
    destruct (for_videos_total year page 0 items st w0) as (st1 & w1 & Heq).
    rewrite Heq in *. cbn in Hseg1.
    destruct (IH (S page) st1 w1) as (seg2 & Hseg2 & Hg2).
    exists (seg0 ++ seg1 ++ seg2). split.
    + by rewrite Hseg2, Hseg1, Hseg0, <- !app_assoc.
    + apply gated_quiet_app; [done|]. by apply gated_app.
Qed.

Lemma process_videos_events fuel year w :
  exists seg,
    trace (snd (process_videos cfg net fuel year w)) = trace w ++ seg
    /\ gated seg.
Proof.
  unfold process_videos. unfold bind at 1.
  destruct (pagination_events fuel year 1 {| processed := 0; errors := 0 |} w)
    as (seg & Hseg & Hg).
  destruct (pagination cfg net fuel year 1 _ w) as [[[page st|st]|e] w'];
    cbn in Hseg; cbn; try by eauto.
  exists (seg ++ [Log INFO (MsgComplete (processed st) (errors st))]).
  split; [by rewrite Hseg, app_assoc|].
  apply gated_app; [done|]. by repeat constructor.
Qed.

(** **** Deletion is gated on download *)

(** C1. In every run of [process_videos], whatever the network answers
    and however many pages are fetched: [delete_video] is called for an
    item if and only if [download_video] returned success for that item;
    the call comes after that return; and every deletion request sent
    to the API comes directly after such a call, itself directly after
    the successful return of the download of the same item. *)
Theorem C1_delete_iff_download_returned_success fuel year w :
  let evs := new_events w (snd (process_videos cfg net fuel year w)) in
  (forall it,
      (exists uri, In (DeleteCalled it uri) evs)
      <-> (exists name, In (DownloadReturned it name true) evs))
  /\ (forall k it uri,
        evs !! k = Some (DeleteCalled it uri) ->
        exists j name,
          (j < k)%nat /\ evs !! j = Some (DownloadReturned it name true))
  /\ (forall k uri,
        evs !! k = Some (ApiDelete uri) ->
        exists j it name,
          k = S (S j)
          /\ evs !! j = Some (DownloadReturned it name true)
          /\ evs !! S j = Some (DeleteCalled it uri)).
Proof.
  intros evs.
  destruct (process_videos_events fuel year w) as (seg & Hseg & Hg).
  assert (evs = seg) as -> by (by apply new_events_app).
  split; [|split].
  - intros it. split.
    + intros [uri Hin]. by eapply gated_delete_called.
    + intros [name Hin]. by eapply gated_download_returned.
  - intros k it uri Hk.
    destruct (gated_delete_called_before _ _ _ _ Hg Hk) as (j & name & <- & Hj).
    exists j, name. split; [lia|done].
  - intros k uri Hk. by apply gated_api_delete.
Qed.

(** **** [delete_video] *)

(** C7. [delete_video] returns [True] exactly when the API answers with
    status 204; any other status, and an exception of the request, give
    [False] and nothing is raised; and one call sends one request. *)
Theorem C7_delete_video_success_iff_204 uri w :
  let r := api_delete net (clock w) uri in
  let res := delete_video net uri w in
  (fst res = Ret true <-> r = DeleteResp 204)
  /\ (r <> DeleteResp 204 -> fst res = Ret false)
  /\ count is_api_delete (new_events w (snd res)) = 1%nat
  /\ clock (snd res) = S (clock w).
Proof.
  intros r res. subst res. rewrite delete_video_eq. fold r.
  cbn [fst snd]. rewrite new_events_ticked_extend.
  assert (delete_succeeds r = true <-> r = DeleteResp 204) as Hiff.
  { destruct r as [|status]; cbn; [done|].
    split; [intros ->%Z.eqb_eq; done|by intros [= ->]]. }
  split; [|split; [|split]].
  - rewrite <- Hiff. split; [by intros [= ->]|by intros ->].
  - intros Hne. destruct (delete_succeeds r); [|done].
    destruct Hne. by apply Hiff.
  - unfold delete_log. destruct r as [|status]; [done|].
    by destruct (status =? 204).
  - done.
Qed.

(** **** [download_video] *)

(** C2. When no file is at the target path before the call and the
    connection or the streaming fails, [download_video] returns [False]
    and no file is at the target path afterwards.  More generally,
    after a call that found no file there, the path holds no file (the
    call returned [False]) or the whole body of a response that was
    received to its end (the call returned [True]); the call never
    raises. *)
Theorem C2_failed_download_leaves_no_file link name w :
  fs w !! file_path cfg name = None ->
  let r := session_get net (clock w) link in
  let opened := open_wb net (S (clock w)) (file_path cfg name) in
  let res := download_video cfg net link name w in
  (transfer_fails r opened = true ->
   fst res = Ret false /\ fs (snd res) !! file_path cfg name = None)
  /\ (fst res = Ret false -> fs (snd res) !! file_path cfg name = None)
  /\ (fst res = Ret true ->
      transfer_fails r opened = false
      /\ fs (snd res) !! file_path cfg name = Some (content (body_of r)))
  /\ (exists ok, fst res = Ret ok).
Proof.
  intros Hc r opened res. subst res.
  rewrite (download_video_absent _ _ _ Hc). fold r opened.
  cbn [fst snd fs].
  destruct (transfer_fails r opened); cbn [negb].
  - repeat split; try done. by eauto.
  - repeat split; try done.
    + by rewrite lookup_insert_eq.
    + by eauto.
Qed.

Lemma count_progress_of p chunks :
  (forall n, p (Progress n) = false) -> count p (progress_of chunks) = 0%nat.
Proof.
  intros Hp. induction chunks as [|chunk rest IH]; [done|].
  change (progress_of (chunk :: rest))
    with ((if String.eqb chunk "" then []
           else [Progress (String.length chunk)]) ++ progress_of rest)%list.
  destruct (String.eqb chunk ""); [done|].
  unfold count in *. cbn. by rewrite Hp.
Qed.

Lemma count_app p evs evs' :
  count p (evs ++ evs') = (count p evs + count p evs')%nat.
Proof. unfold count. by rewrite List.filter_app, length_app. Qed.

Lemma count_session_get_transfer link name r opened :
  count is_session_get (transfer_events link name r opened) = 1%nat.
Proof.
  unfold transfer_events.
  change (SessionGet link :: ?l) with ([SessionGet link] ++ l)%list.
  rewrite !count_app.
  replace (count is_session_get (if rejected r || negb opened then []
                                 else progress_of (body_of r))) with 0%nat.
  2: { destruct (rejected r || negb opened); [done|].
       symmetry. by apply count_progress_of. }
  by destruct (transfer_fails r opened).
Qed.

(** C3, as the code has it.  If a file is at the target path,
    [download_video] returns [True] at once: no request is sent and no
    file is touched.  Hence, for two successive calls with the same
    target path: when the first returns [True], the second skips, and
    the two calls send at most one download request; the second call
    sends a request only when the first returned [False] and left no
    file. *)
Theorem C3_skip_rule link1 name1 link2 name2 w :
  file_path cfg name1 = file_path cfg name2 ->
  let r1 := download_video cfg net link1 name1 w in
  let r2 := download_video cfg net link2 name2 (snd r1) in
  (forall c, fs w !! file_path cfg name1 = Some c ->
             r1 = (Ret true, extend w [Log INFO (MsgSkipExisting name1)]))
  /\ (fst r1 = Ret true ->
      r2 = (Ret true, extend (snd r1) [Log INFO (MsgSkipExisting name2)]))
  /\ (fst r1 = Ret true ->
      (count is_session_get (new_events w (snd r2)) <= 1)%nat)
  /\ (count is_session_get (new_events (snd r1) (snd r2)) <> 0%nat ->
      fst r1 = Ret false /\ fs (snd r1) !! file_path cfg name1 = None).
Proof.
  intros Hpath r1 r2.
  assert (forall w1 c, fs w1 !! file_path cfg name1 = Some c ->
            download_video cfg net link2 name2 w1
            = (Ret true, extend w1 [Log INFO (MsgSkipExisting name2)]))
    as Hskip.
  { intros w1 c Hc. rewrite Hpath in Hc.
    by rewrite (download_video_present _ _ _ _ Hc). }
  assert (forall w1,
            download_video cfg net link2 name2 w1
            = (Ret true, extend w1 [Log INFO (MsgSkipExisting name2)]) ->
            count is_session_get
              (new_events w1 (snd (download_video cfg net link2 name2 w1)))
            = 0%nat) as Hnone.
  { intros w1 ->. cbn [snd]. by rewrite new_events_extend. }
  destruct (fs w !! file_path cfg name1) as [c|] eqn:Hc.
  - assert (r1 = (Ret true, extend w [Log INFO (MsgSkipExisting name1)]))
      as Hr1 by (subst r1; by rewrite (download_video_present _ _ _ _ Hc)).
    assert (r2 = (Ret true, extend (snd r1) [Log INFO (MsgSkipExisting name2)]))
      as Hr2 by (subst r2; rewrite Hr1; by apply (Hskip _ c)).
    split; [|split; [|split]].
    + intros c' _. exact Hr1.
    + intros _. exact Hr2.
    + intros _. rewrite Hr2, Hr1. cbn [snd].
      rewrite extend_extend, new_events_extend. cbn. lia.
    + intros Hcount. destruct Hcount. by apply Hnone.
  - pose proof (download_video_absent link1 name1 w Hc) as Hr1.
    cbn zeta in Hr1. fold r1 in Hr1.
    set (r := session_get net (clock w) link1) in *.
    set (opened := open_wb net (S (clock w)) (file_path cfg name1)) in *.
    destruct (transfer_fails r opened) eqn:Hf; cbn [negb] in Hr1.
    + split; [|split; [|split]].
      * intros c' [=].
      * rewrite Hr1. intros [=].
      * rewrite Hr1. intros [=].
      * intros _. by rewrite Hr1.
    + assert (r2 = (Ret true,
                    extend (snd r1) [Log INFO (MsgSkipExisting name2)]))
        as Hr2.
      { subst r2. apply (Hskip _ (content (body_of r))).
        rewrite Hr1. cbn [snd fs]. apply lookup_insert_eq. }
      split; [|split; [|split]].
      * intros c' [=].
      * intros _. exact Hr2.
      * intros _. rewrite Hr2, Hr1. cbn [snd]. unfold new_events, extend.
        cbn [trace]. rewrite <- app_assoc, drop_app_length, count_app.
        rewrite count_session_get_transfer. cbn. lia.
      * intros Hcount. destruct Hcount. by apply Hnone.
Qed.

(** **** The target path *)

Lemma contains_append c a b :
  contains c (String.append a b) = contains c a || contains c b.
Proof.
  induction a as [|x a IH]; [done|].
  rewrite append_cons. cbn [contains]. by rewrite IH, orb_assoc.
Qed.

Lemma str_replace_removes old new s :
  contains old new = false -> contains old (str_replace old new s) = false.
Proof.
  intros Hnew. induction s as [|a s IH]; [done|].
  cbn [str_replace]. destruct (Ascii.eqb a old) eqn:Ha.
  - by rewrite contains_append, Hnew, IH.
  - cbn [contains]. by rewrite Ha, IH.
Qed.

Lemma startswith_sep_stem stem :
  contains "/" stem = false ->
  PosixPath.startswith_sep (String.append stem ".mp4") = false.
Proof.
  destruct stem as [|a stem]; [done|].
  rewrite append_cons. cbn. by intros [-> _]%orb_false_iff.
Qed.

(** C6, as the code has it.  The stem is the display name with every
    ['/'] replaced by ['_'], so that [a/b] gives [a_b] and no stem
    holds a ['/']; an item without a display name gets the stem
    [unnamed], and an empty display name gives the empty stem; the
    target path joins the download directory and the stem followed by
    [.mp4], which is [{download_dir}/{stem}.mp4] for a directory name
    that is not empty and does not end in ['/']. *)
Theorem C6_target_path :
  (forall video s,
      getitem video "name" = Ret (JStr s) ->
      video_name_of video = Ret (str_replace "/" "_" s))
  /\ (forall s, contains "/" (str_replace "/" "_" s) = false)
  /\ str_replace "/" "_" "a/b" = "a_b"%string
  /\ (forall video,
        getitem video "name" = Raise KeyError ->
        video_name_of video = Ret "unnamed"%string)
  /\ (forall video,
        getitem video "name" = Ret (JStr "") ->
        video_name_of video = Ret ""%string)
  /\ (forall stem,
        download_dir cfg <> ""%string ->
        PosixPath.endswith_sep (download_dir cfg) = false ->
        contains "/" stem = false ->
        file_path cfg stem
        = String.append (download_dir cfg)
            (String.append "/" (String.append stem ".mp4"))).
Proof.
  repeat split.
  - intros video s Hname. unfold video_name_of.
    by rewrite (getitem_dict_get _ _ _ (JStr "unnamed") Hname).
  - intros s. by apply str_replace_removes.
  - intros video Hname. unfold video_name_of.
    destruct video; try discriminate. cbn in *.
    destruct (assoc "name" items); [discriminate|done].
  - intros video Hname. unfold video_name_of.
    by rewrite (getitem_dict_get _ _ _ (JStr "unnamed") Hname).
  - intros stem Hdir Hend Hstem. unfold file_path, PosixPath.join.
    rewrite (startswith_sep_stem _ Hstem), Hend.
    destruct (String.eqb_spec (download_dir cfg) ""); done.
Qed.

(** **** Files that exist are kept *)

Lemma download_video_keeps link name w p c :
  fs w !! p = Some c ->
  fs (snd (download_video cfg net link name w)) !! p = Some c.
Proof.
  intros Hp. destruct (fs w !! file_path cfg name) as [c'|] eqn:Hc.
  - by rewrite (download_video_present _ _ _ _ Hc).
  - rewrite (download_video_absent _ _ _ Hc). cbn [snd fs].
    destruct (transfer_fails _ _); [done|].
    rewrite lookup_insert_ne; [done|]. congruence.
Qed.

Lemma download_video_true_file link name w :
  fst (download_video cfg net link name w) = Ret true ->
  is_Some (fs (snd (download_video cfg net link name w)) !! file_path cfg name).
Proof.
  destruct (fs w !! file_path cfg name) as [c'|] eqn:Hc.
  - rewrite (download_video_present _ _ _ _ Hc). cbn. by rewrite Hc.
  - rewrite (download_video_absent _ _ _ Hc). cbn [fst snd fs].
    destruct (transfer_fails _ _); [done|].
    by rewrite lookup_insert_eq.
Qed.

Lemma process_video_fs year it video st w :
  fs (snd (process_video cfg net year it video st w)) = fs w
  \/ exists uri name link,
      classify year video = Eligible uri name link
      /\ fs (snd (process_video cfg net year it video st w))
         = fs (snd (download_video cfg net link name
                      (extend w [DownloadCalled it link name]))).
Proof.
  rewrite process_video_eq.
  destruct (classify year video) as [e| |uri| |uri name link]; try by left.
  right. exists uri, name, link. split; [done|].
  by destruct (download_video cfg net link name _) as [[[|]|e] w'].
Qed.

Lemma process_video_keeps year it video st w p c :
  fs w !! p = Some c ->
  fs (snd (process_video cfg net year it video st w)) !! p = Some c.
Proof.
  intros Hp.
  destruct (process_video_fs year it video st w)
    as [->|(uri & name & link & _ & ->)]; [done|].
  by apply download_video_keeps.
Qed.

Lemma for_videos_keeps year page i videos st w p c :
  fs w !! p = Some c ->
  fs (snd (for_videos cfg net year page i videos st w)) !! p = Some c.
Proof.
  revert i st w. induction videos as [|video rest IH]; intros i st w Hp.
  - done.
  - cbn [for_videos]. unfold bind.
    pose proof (process_video_keeps year (page, i) video st w p c Hp) as Hk.
    destruct (process_video_total year (page, i) video st w)
      as (st1 & w1 & Heq).
    rewrite Heq in *. by apply IH.
Qed.

(** **** The verdict on an item, from the expressions of the loop body *)

Lemma classify_out_of_year year video :
  out_of_year year video <-> classify year video = OutOfYear.
Proof.
  unfold out_of_year, classify. split.
  - intros (dt & -> & Hne).
    by destruct (Z.eqb_spec (Datetime.year dt) year).
  - destruct (created_time_of video) as [dt|e]; [|done].
    destruct (Z.eqb_spec (Datetime.year dt) year) as [Heq|Hne]; cbn [negb].
    + destruct (getitem video "uri"); [|done].
      destruct (video_name_of video); [|done].
      destruct (download_link_of video) as [link|e].
      * by destruct (truthy link).
      * by destruct (key_or_index_error e).
    + eauto.
Qed.

Lemma classify_eligible year video uri name link :
  in_year year video -> described video uri name -> has_link video link ->
  classify year video = Eligible uri name link.
Proof.
  intros (dt & Hdt & Hy) [Huri Hname] [Hlink Ht]. unfold classify.
  rewrite Hdt, Huri, Hname, Hlink, Ht.
  by destruct (Z.eqb_spec (Datetime.year dt) year).
Qed.

Lemma classify_missing_link year video uri name :
  in_year year video -> described video uri name -> missing_link video ->
  classify year video = NoLink uri \/ classify year video = FalsyLink.
Proof.
  intros (dt & Hdt & Hy) [Huri Hname] Hmiss. unfold classify, missing_link in *.
  rewrite Hdt, Huri, Hname.
  destruct (Z.eqb_spec (Datetime.year dt) year) as [_|Hne]; [|done].
  cbn [negb].
  destruct (download_link_of video) as [link|e]; rewrite Hmiss; auto.
Qed.

(** **** The counters *)

(** C5. How one item changes the counters.  A creation year other than
    the target year changes nothing at all.  A missing download link
    adds one to [errors], without any request.  A download that returns
    [False] adds one to [errors] and the item is not deleted: no
    deletion request is sent.  A download that returns [True] is
    followed by [delete_video]: when that returns [True], one is added
    to [processed]; when it returns [False], one is added to [errors]
    and the local file is still there.  In every case the turn ends
    normally, and the counters are unchanged for an out-of-year item
    and otherwise exactly one of them is greater by exactly one. *)
Theorem C5_counter_updates year it video st w :
  let res := process_video cfg net year it video st w in
  (out_of_year year video -> res = (Ret st, w))
  /\ (forall uri name,
        in_year year video -> described video uri name ->
        missing_link video ->
        fst res = Ret (incr_errors st)
        /\ clock (snd res) = clock w /\ fs (snd res) = fs w)
  /\ (forall uri name link,
        in_year year video -> described video uri name ->
        has_link video link ->
        let d :=
          download_video cfg net link name
            (extend w [DownloadCalled it link name]) in
        let del :=
          delete_video net uri
            (extend (snd d)
               [DownloadReturned it name true; DeleteCalled it uri]) in
        (fst d = Ret false ->
         fst res = Ret (incr_errors st)
         /\ count is_api_delete (new_events w (snd res)) = 0%nat)
        /\ (fst d = Ret true -> fst del = Ret true ->
            res = (Ret (incr_processed st), snd del))
        /\ (fst d = Ret true -> fst del = Ret false ->
            res = (Ret (incr_errors st), snd del)
            /\ is_Some (fs (snd res) !! file_path cfg name)))
  /\ (exists st',
        fst res = Ret st'
        /\ ((out_of_year year video /\ st' = st)
            \/ (~ out_of_year year video
                /\ ((processed st' = S (processed st)
                     /\ errors st' = errors st)
                    \/ (processed st' = processed st
                        /\ errors st' = S (errors st)))))).
Proof.
  intros res. subst res. rewrite process_video_eq.
  split; [|split; [|split]].
  - intros Hout%classify_out_of_year. by rewrite Hout.
  - intros uri name Hy Hd Hm.
    by destruct (classify_missing_link _ _ _ _ Hy Hd Hm) as [-> | ->].
  - intros uri name link Hy Hd Hl d del.
    rewrite (classify_eligible _ _ _ _ _ Hy Hd Hl).
    pose proof (download_video_true_file link name
                  (extend w [DownloadCalled it link name])) as Hfile.
    destruct (download_video_events link name
                (extend w [DownloadCalled it link name]))
      as (seg & Hseg & Hq%low_other).
    subst del. rewrite delete_video_eq. subst d.
    destruct (download_video cfg net link name _) as [[[|]|e] w'];
      cbn [fst snd clock extend ticked fs trace] in *.
    + split; [done|]. split.
      * intros _ [= Hdel]. rewrite Hdel. f_equal. world_eq.
      * intros _ [= Hdel]. rewrite Hdel. split; [|by apply Hfile].
        f_equal. world_eq.
    + split; [|done]. intros _. split; [done|].
      erewrite new_events_app
        by (cbn [trace extend]; rewrite Hseg, <- !app_assoc; reflexivity).
      rewrite (count_app _ [_]), count_app.
      assert (count is_api_delete seg = 0%nat) as ->; [|done].
      clear Hseg. induction Hq as [|ev seg Hev _ IH]; [done|].
      unfold count in *. cbn. by destruct ev.
    + done.
  - destruct (classify year video) as [e| |uri| |uri name link] eqn:Hcl.
    2: { exists st. split; [done|]. left. split; [|done].
         by apply classify_out_of_year. }
    all: assert (~ out_of_year year video) as Hin
        by (intros Hout%classify_out_of_year; congruence).
    1-3: exists (incr_errors st); split; [done|]; right; split; [done|];
         right; done.
    destruct (download_video cfg net link name _) as [[[|]|e] w'];
      cbn [fst].
    + eexists; split; [done|]. right. split; [done|].
      destruct (delete_succeeds _); [left|right]; done.
    + eexists; split; [done|]. right. split; [done|]. by right.
    + eexists; split; [done|]. right. split; [done|]. by right.
Qed.

(** **** The year filter *)

Lemma created_time_of_string video s :
  getitem video "created_time" = Ret (JStr s) ->
  created_time_of video = Datetime.fromisoformat (str_replace "Z" "+00:00" s).
Proof. intros H. unfold created_time_of. by rewrite H. Qed.

(** C8. An item is filtered by the year of its parsed creation
    timestamp: when that year is not the target year the item is
    skipped and nothing changes; when it is, an item with an
    identifier, a name and a link is downloaded.  An item created at
    [2022-12-31T23:59:59Z] is in the year 2022; an item created at
    [2023-01-01T00:00:00Z] is not, and is skipped for the target year
    2022. *)
Theorem C8_year_filter_boundary it video st w :
  (forall year created_time,
      created_time_of video = Ret created_time ->
      Datetime.year created_time <> year ->
      process_video cfg net year it video st w = (Ret st, w))
  /\ (forall year created_time uri name link,
        created_time_of video = Ret created_time ->
        Datetime.year created_time = year ->
        described video uri name -> has_link video link ->
        exists ok,
          In (DownloadReturned it name ok)
             (new_events w (snd (process_video cfg net year it video st w))))
  /\ (getitem video "created_time" = Ret (JStr "2022-12-31T23:59:59Z") ->
      in_year 2022 video)
  /\ (getitem video "created_time" = Ret (JStr "2023-01-01T00:00:00Z") ->
      out_of_year 2022 video
      /\ process_video cfg net 2022 it video st w = (Ret st, w)).
Proof.
  assert (forall year, out_of_year year video ->
            process_video cfg net year it video st w = (Ret st, w)) as Hskip.
  { intros year Hout%classify_out_of_year.
    by rewrite process_video_eq, Hout. }
  split; [|split; [|split]].
  - intros year dt Hdt Hne. apply Hskip. by exists dt.
  - intros year dt uri name link Hdt Hy Hd Hl.
    rewrite process_video_eq.
    rewrite (classify_eligible year video uri name link); [|by exists dt|done..].
    destruct (download_video_events link name
                (extend w [DownloadCalled it link name])) as (seg & Hseg & _).
    destruct (download_video cfg net link name _) as [[ok|e] w'] eqn:Hdl;
      cbn [snd] in Hseg.
    + exists ok. destruct ok.
      all: erewrite new_events_app
        by (cbn [snd trace extend ticked] in *; rewrite Hseg, <- !app_assoc;
            reflexivity).
      all: apply in_or_app; right; apply in_or_app; right; by left.
    + destruct (download_video_total link name
                  (extend w [DownloadCalled it link name])) as (ok & w2 & Heq).
      congruence.
  - intros Hc. eexists. rewrite (created_time_of_string _ _ Hc).
    split; [vm_compute; reflexivity|reflexivity].
  - intros Hc.
    assert (out_of_year 2022 video) as Hout.
    { eexists. rewrite (created_time_of_string _ _ Hc).
      split; [vm_compute; reflexivity|]. cbn. discriminate. }
    split; [done|]. by apply Hskip.
Qed.

(** **** Failures of one item *)

Lemma pagination_total fuel year page st w :
  listings_iterable cfg net ->
  exists r w', pagination cfg net fuel year page st w = (Ret r, w').
Proof.
  intros Hiter. revert page st w.
  induction fuel as [|fuel IH]; intros page st w.
  - cbn. eauto.
  - cbn [pagination]. unfold bind at 1. rewrite _get_videos_eq.
    destruct (listing (api_get net (clock w) page (per_page cfg)))
      as [data|e] eqn:Hl.
    2: { cbn. eauto. }
    destruct (truthy data) eqn:Ht; cbn [negb].
    2: { cbn. eauto. }
    destruct (Hiter _ _ _ Hl Ht) as [items Hitems].
    unfold bind at 1. unfold lift at 1. rewrite Hitems.
    unfold bind at 1.
    destruct (for_videos_total year page 0 items st
                (extend (ticked w) [ApiGet page])) as (st' & w' & ->).
    apply IH.
Qed.

(** C9. An exception raised while one item is processed is caught by
    the handler of that turn of the loop: one is added to [errors], the
    loop goes on with the next item of the page, the loop over a page
    always ends normally, and the next page is then requested; a run
    whose listings can be looped over never raises.  A creation timestamp
    that is absent or malformed, and an absent identifier, are such
    exceptions. *)
Theorem C9_item_exception_is_isolated year page i video rest st w :
  (forall e w1,
      process_video_body cfg net year (page, i) video st w = (Raise e, w1) ->
      process_video cfg net year (page, i) video st w
      = (Ret (incr_errors st), extend w1 [Log ERROR MsgProcessingError])
      /\ for_videos cfg net year page i (video :: rest) st w
         = for_videos cfg net year page (S i) rest (incr_errors st)
             (extend w1 [Log ERROR MsgProcessingError]))
  /\ (forall e,
        created_time_of video = Raise e ->
        process_video_body cfg net year (page, i) video st w = (Raise e, w))
  /\ (forall e,
        in_year year video -> getitem video "uri" = Raise e ->
        process_video_body cfg net year (page, i) video st w = (Raise e, w))
  /\ (exists st' w',
        for_videos cfg net year page i (video :: rest) st w = (Ret st', w'))
  /\ (forall fuel items st0 w0,
        listing (api_get net (clock w0) page (per_page cfg))
        = Ret (JArr (video :: items)) ->
        exists st' w',
          for_videos cfg net year page 0 (video :: items) st0
            (extend (ticked w0) [ApiGet page]) = (Ret st', w')
          /\ pagination cfg net (S fuel) year page st0 w0
             = pagination cfg net fuel year (S page) st' w')
  /\ (listings_iterable cfg net ->
      forall fuel w0,
      exists r w', process_videos cfg net fuel year w0 = (Ret r, w')).
Proof.
  split; [|split; [|split; [|split; [|split]]]].
  - intros e w1 Hbody.
    assert (process_video cfg net year (page, i) video st w
            = (Ret (incr_errors st), extend w1 [Log ERROR MsgProcessingError]))
      as Heq.
    { unfold process_video, try_except. rewrite Hbody. reflexivity. }
    split; [done|]. cbn [for_videos]. unfold bind at 1. by rewrite Heq.
  - intros e He. unfold process_video_body, bind, lift. by rewrite He.
  - intros e (dt & Hdt & Hy) He. unfold process_video_body, bind, lift.
    rewrite Hdt, He. by destruct (Z.eqb_spec (Datetime.year dt) year).
  - apply for_videos_total.
  - intros fuel items st0 w0 Hl.
    destruct (for_videos_total year page 0 (video :: items) st0
                (extend (ticked w0) [ApiGet page])) as (st' & w' & Heq).
    exists st', w'. split; [done|].
    cbn [pagination]. unfold bind at 1. rewrite _get_videos_eq, Hl.
    cbn [truthy negb]. unfold bind at 1. unfold lift at 1. cbn [iter].
    unfold bind at 1. by rewrite Heq.
  - intros Hiter fuel w0. unfold process_videos. unfold bind at 1.
    destruct (pagination_total fuel year 1 {| processed := 0; errors := 0 |}
                w0 Hiter) as (r & w' & ->).
    destruct r; cbn; eauto.
Qed.

(** **** The end of the pagination *)

(** C4. A listing that fails and a listing that returns an empty page
    end the loop alike: the loop is left in [Done] with the counters as
    they were, and the only request made is the one for this page.  A
    failure is logged as an error; an empty page is not logged. *)
Theorem C4_failed_listing_ends_pagination fuel year page st w :
  let r := api_get net (clock w) page (per_page cfg) in
  (raises (listing r) ->
   pagination cfg net (S fuel) year page st w
   = (Ret (Done st),
      extend (ticked w) [ApiGet page; Log ERROR (MsgFetchError page)]))
  /\ (listing r = Ret (JArr []) ->
      pagination cfg net (S fuel) year page st w
      = (Ret (Done st), extend (ticked w) [ApiGet page])).
Proof.
  intros r. subst r. cbn [pagination].
  split; unfold bind at 1; rewrite _get_videos_eq.
  - destruct (listing _); [done|]. reflexivity.
  - intros ->. reflexivity.
Qed.

(** **** A name that was downloaded is not downloaded again *)

Lemma low_In evs e :
  Forall (fun e => low e = true) evs -> In e evs -> low e = true.
Proof. rewrite List.Forall_forall. auto. Qed.

Lemma files_of_returned_app f f' evs seg :
  files_of_returned cfg f evs ->
  (forall p, is_Some (f !! p) -> is_Some (f' !! p)) ->
  (forall it name,
      In (DownloadReturned it name true) seg ->
      is_Some (f' !! file_path cfg name)) ->
  files_of_returned cfg f' (evs ++ seg).
Proof.
  intros Hf Hkeep Hseg it name [Hin|Hin]%in_app_or; [|by eauto].
  by apply Hkeep, (Hf it).
Qed.

Lemma files_of_returned_low f evs seg :
  files_of_returned cfg f evs ->
  Forall (fun e => low e = true) seg ->
  files_of_returned cfg f (evs ++ seg).
Proof.
  intros Hf Hlow. apply (files_of_returned_app f); [done|done|].
  intros it name Hin. by apply (low_In _ _ Hlow) in Hin.
Qed.

Lemma skips_known_names_low evs seg :
  skips_known_names evs ->
  Forall (fun e => low e = true) seg ->
  skips_known_names (evs ++ seg).
Proof.
  intros Hs Hlow pre it2 link2 name post Heq Hin.
  apply app_eq_inv in Heq as [(l & -> & Hl)|(l & -> & Hl)].
  - destruct l as [|e l]; cbn in Hl.
    + subst seg. by apply Forall_cons in Hlow as [? _].
    + injection Hl as <- ->.
      destruct (Hs pre it2 link2 name l eq_refl Hin) as (uri & rest & ->).
      by exists uri, (rest ++ seg).
  - subst seg. apply Forall_app in Hlow as [_ Hlow].
    by apply Forall_cons in Hlow as [? _].
Qed.

(** the events of one eligible item: the call, then [rest] *)
Lemma skips_known_names_item evs it link name rest :
  skips_known_names evs ->
  Forall (fun e => is_download_called e = false) rest ->
  ((exists it1, In (DownloadReturned it1 name true) evs) ->
   exists uri rest',
     rest = Log INFO (MsgSkipExisting name) :: DownloadReturned it name true
            :: DeleteCalled it uri :: ApiDelete uri :: rest') ->
  skips_known_names (evs ++ DownloadCalled it link name :: rest).
Proof.
  intros Hs Hrest Hskip pre it2 link2 name2 post Heq Hin.
  apply app_eq_inv in Heq as [(l & -> & Hl)|(l & -> & Hl)].
  - destruct l as [|e l]; cbn in Hl.
    + injection Hl as -> -> -> ->. rewrite app_nil_r in Hskip. by apply Hskip.
    + injection Hl as <- ->.
      destruct (Hs pre it2 link2 name2 l eq_refl Hin) as (uri & rest' & ->).
      by eexists uri, _.
  - destruct l as [|e l]; cbn in Hl.
    + injection Hl as -> -> -> ->. rewrite app_nil_r in Hin. by apply Hskip.
    + injection Hl as <- ->.
      apply Forall_app in Hrest as [_ Hrest].
      by apply Forall_cons in Hrest as [? _].
Qed.

Lemma low_not_download_called evs :
  Forall (fun e => low e = true) evs ->
  Forall (fun e => is_download_called e = false) evs.
Proof. intros H. eapply Forall_impl; [exact H|]. by intros []. Qed.

Lemma delete_log_low uri r : low (delete_log uri r) = true.
Proof. destruct r as [|status]; cbn; [done|]. by destruct (status =? 204). Qed.

Lemma delete_log_not_returned uri r it name ok :
  delete_log uri r <> DownloadReturned it name ok.
Proof.
  intros H. apply (f_equal low) in H. by rewrite delete_log_low in H.
Qed.

Lemma process_video_dedup year it video st w evs :
  files_of_returned cfg (fs w) evs -> skips_known_names evs ->
  exists seg,
    trace (snd (process_video cfg net year it video st w)) = trace w ++ seg
    /\ files_of_returned cfg
         (fs (snd (process_video cfg net year it video st w))) (evs ++ seg)
    /\ skips_known_names (evs ++ seg).
Proof.
  intros Hf Hs. rewrite process_video_eq.
  destruct (classify year video) as [e| |uri| |uri name link].
  1,3: eexists; (split; [done|]); cbn [snd extend fs]; split;
       [apply files_of_returned_low|apply skips_known_names_low];
       by repeat constructor.
  1,2: exists []; rewrite !app_nil_r; by cbn [snd].
  destruct (fs w !! file_path cfg name) as [c|] eqn:Hc.
  - rewrite (download_video_present link name
               (extend w [DownloadCalled it link name]) c Hc).
    cbn [snd fst extend ticked clock fs trace]. rewrite <- !app_assoc.
    eexists. split; [done|]. cbn [app]. split.
    + apply (files_of_returned_app (fs w)); [done|done|].
      intros it' name' Hin. cbn in Hin.
      destruct Hin as [[=]|[[=]|[[= _ <-]|[[=]|[[=]|[Hin|[]]]]]]].
      * by rewrite Hc.
      * by apply delete_log_not_returned in Hin.
    + apply skips_known_names_item; [done| |by eauto].
      repeat constructor.
      by destruct (api_delete net _ uri) as [|status];
        [|cbn; destruct (status =? 204)].
  - assert (~ exists it1, In (DownloadReturned it1 name true) evs) as Hnew.
    { intros [it1 Hin]. apply Hf in Hin as [c' Hc']. congruence. }
    rewrite (download_video_absent link name
               (extend w [DownloadCalled it link name]) Hc).
    cbn [extend clock fs trace].
    set (r := session_get net (clock w) link).
    set (opened := open_wb net (S (clock w)) (file_path cfg name)).
    pose proof (transfer_events_low link name r opened) as Hlow.
    destruct (transfer_fails r opened); cbn [negb snd fst extend ticked fs trace];
      rewrite <- !app_assoc; (eexists; split; [done|]); cbn [app]; split.
    + apply (files_of_returned_app (fs w)); [done|done|].
      intros it' name' [[=]|[Hin|Hin]%in_app_or].
      * by apply (low_In _ _ Hlow) in Hin.
      * by destruct Hin as [[=]|[]].
    + apply skips_known_names_item; [done| |done].
      apply Forall_app. split; [by apply low_not_download_called|].
      by repeat constructor.
    + apply (files_of_returned_app (fs w)); [done| |].
      * intros p Hp. apply lookup_insert_is_Some.
        destruct (decide (file_path cfg name = p)); auto.
      * intros it' name' [[=]|[Hin|Hin]%in_app_or].
        -- by apply (low_In _ _ Hlow) in Hin.
        -- destruct Hin as [[= _ <-]|[[=]|[[=]|[Hin|[]]]]].
           ++ by rewrite lookup_insert_eq.
           ++ by apply delete_log_not_returned in Hin.
    + apply skips_known_names_item; [done| |done].
      apply Forall_app. split; [by apply low_not_download_called|].
      repeat constructor.
      by destruct (api_delete net _ uri) as [|status];
        [|cbn; destruct (status =? 204)].
Qed.

Lemma for_videos_dedup year page i videos st w evs :
  files_of_returned cfg (fs w) evs -> skips_known_names evs ->
  exists seg,
    trace (snd (for_videos cfg net year page i videos st w)) = trace w ++ seg
    /\ files_of_returned cfg
         (fs (snd (for_videos cfg net year page i videos st w))) (evs ++ seg)
    /\ skips_known_names (evs ++ seg).
Proof.
  revert i st w evs.
  induction videos as [|video rest IH]; intros i st w evs Hf Hs.
  - exists []. by rewrite !app_nil_r.
  - cbn [for_videos]. unfold bind.
    destruct (process_video_dedup year (page, i) video st w evs Hf Hs)
      as (seg1 & Hseg1 & Hf1 & Hs1).
    destruct (process_video_total year (page, i) video st w)
      as (st1 & w1 & Heq).
    rewrite Heq in *. cbn [snd] in *.
    destruct (IH (S i) st1 w1 _ Hf1 Hs1) as (seg2 & Hseg2 & Hf2 & Hs2).
    exists (seg1 ++ seg2). rewrite !app_assoc, <- Hseg1. by rewrite <- app_assoc in *.
Qed.

(** one turn of the pagination loop *)
Lemma pagination_S fuel year page st w :
  pagination cfg net (S fuel) year page st w =
  let seg0 :=
    match listing (api_get net (clock w) page (per_page cfg)) with
    | Ret _ => [ApiGet page]
    | Raise _ => [ApiGet page; Log ERROR (MsgFetchError page)]
    end in
  let data :=
    match listing (api_get net (clock w) page (per_page cfg)) with
    | Ret data => data
    | Raise _ => JNull
    end in
  let w0 := extend (ticked w) seg0 in
  if truthy data then
    match iter data with
    | Raise e => (Raise e, w0)
    | Ret items =>
        match for_videos cfg net year page 0 items st w0 with
        | (Ret st', w1) => pagination cfg net fuel year (S page) st' w1
        | (Raise e, w1) => (Raise e, w1)
        end
    end
  else (Ret (Done st), w0).
Proof.
  cbn [pagination]. unfold bind at 1. rewrite _get_videos_eq.
  destruct (listing _) as [data|e]; cbn zeta; [|done].
  by destruct (truthy data).
Qed.

Lemma pagination_dedup fuel year page st w evs :
  files_of_returned cfg (fs w) evs -> skips_known_names evs ->
  exists seg,
    trace (snd (pagination cfg net fuel year page st w)) = trace w ++ seg
    /\ files_of_returned cfg
         (fs (snd (pagination cfg net fuel year page st w))) (evs ++ seg)
    /\ skips_known_names (evs ++ seg).
Proof.
  revert page st w evs.
  induction fuel as [|fuel IH]; intros page st w evs Hf Hs.
  - exists []. by rewrite !app_nil_r.
  - rewrite pagination_S. cbn zeta.
    set (seg0 := match listing (api_get net (clock w) page (per_page cfg)) with
                 | Ret _ => [ApiGet page]
                 | Raise _ => [ApiGet page; Log ERROR (MsgFetchError page)]
                 end).
    set (data := match listing (api_get net (clock w) page (per_page cfg)) with
                 | Ret data => data
                 | Raise _ => JNull
                 end).
    assert (Forall (fun e => low e = true) seg0) as Hlow
        by (subst seg0; destruct (listing _); by repeat constructor).
    pose proof (files_of_returned_low _ _ _ Hf Hlow) as Hf0.
    pose proof (skips_known_names_low _ _ Hs Hlow) as Hs0.
    destruct (truthy data).
    2: { by exists seg0. }
    destruct (iter data) as [items|e].
    2: { by exists seg0. }
    destruct (for_videos_dedup year page 0 items st (extend (ticked w) seg0)
                (evs ++ seg0) Hf0 Hs0) as (seg1 & Hseg1 & Hf1 & Hs1).
    destruct (for_videos_total year page 0 items st (extend (ticked w) seg0))
      as (st1 & w1 & Heq).
    rewrite Heq in *. cbn [snd extend trace ticked] in *.
    destruct (IH (S page) st1 w1 _ Hf1 Hs1) as (seg2 & Hseg2 & Hf2 & Hs2).
    exists (seg0 ++ seg1 ++ seg2).
    rewrite Hseg2, Hseg1. rewrite <- !app_assoc in *. done.
Qed.

Lemma process_videos_eq fuel year w :
  process_videos cfg net fuel year w =
  match pagination cfg net fuel year 1 {| processed := 0; errors := 0 |} w with
  | (Ret (Done st), w') =>
      (Ret (Done st),
       extend w' [Log INFO (MsgComplete (processed st) (errors st))])
  | r => r
  end.
Proof.
  unfold process_videos. unfold bind at 1.
  by destruct (pagination cfg net fuel year 1 _ w) as [[[page st|st]|e] w'].
Qed.

Lemma process_videos_dedup fuel year w :
  exists seg,
    trace (snd (process_videos cfg net fuel year w)) = trace w ++ seg
    /\ files_of_returned cfg (fs (snd (process_videos cfg net fuel year w))) seg
    /\ skips_known_names seg.
Proof.
  assert (files_of_returned cfg (fs w) []) as Hf by (by intros ? ? ?).
  assert (skips_known_names []) as Hs.
  { intros pre ? ? ? post Heq. by destruct pre. }
  rewrite process_videos_eq.
  destruct (pagination_dedup fuel year 1 {| processed := 0; errors := 0 |}
              w [] Hf Hs) as (seg & Hseg & Hf1 & Hs1).
  cbn [app] in *.
  destruct (pagination cfg net fuel year 1 _ w) as [[[page st|st]|e] w'];
    cbn [snd] in *; try by eauto.
  exists (seg ++ [Log INFO (MsgComplete (processed st) (errors st))]).
  cbn [snd extend trace fs]. rewrite Hseg, <- app_assoc.
  split; [done|]. split.
  - apply files_of_returned_low; [done|by repeat constructor].
  - apply skips_known_names_low; [done|by repeat constructor].
Qed.

Lemma pagination_keeps fuel year page st w p c :
  fs w !! p = Some c ->
  fs (snd (pagination cfg net fuel year page st w)) !! p = Some c.
Proof.
  revert page st w. induction fuel as [|fuel IH]; intros page st w Hp.
  - done.
  - cbn [pagination]. unfold bind at 1.
    assert (fs (snd (_get_videos cfg net page w)) = fs w) as Hfs
        by (rewrite _get_videos_eq; by destruct (listing _)).
    destruct (_get_videos_events page w) as (data & _ & Hd & _).
    destruct (_get_videos cfg net page w) as [o w0]. cbn in Hd, Hfs. subst o.
    rewrite <- Hfs in Hp.
    destruct (truthy data); cbn [negb]; [|done].
    unfold bind at 1. unfold lift at 1.
    destruct (iter data) as [items|e]; [|done].
    unfold bind at 1.
    pose proof (for_videos_keeps year page 0 items st w0 p c Hp) as Hk.
    destruct (for_videos_total year page 0 items st w0) as (st1 & w1 & Heq).
    rewrite Heq in *. by apply IH.
Qed.

Lemma process_videos_keeps fuel year w p c :
  fs w !! p = Some c ->
  fs (snd (process_videos cfg net fuel year w)) !! p = Some c.
Proof.
  intros Hp. unfold process_videos. unfold bind at 1.
  pose proof (pagination_keeps fuel year 1 {| processed := 0; errors := 0 |}
                w p c Hp) as Hk.
  by destruct (pagination cfg net fuel year 1 _ w) as [[[page st|st]|e] w'].
Qed.

(** C10, as the code has it.  The target path depends on the download
    directory and the name only, so a call that finds the file does the
    same whatever the link.  In every run, once a download for a name
    returned success, each later call of [download_video] for an item
    with that name logs the skip and returns success at once, with no
    request in between, and the deletion of that item is called and
    requested next.  Processing such an item leaves every file as it is,
    and the item is counted in [processed] when the API accepts the
    deletion and in [errors] otherwise.  No file that exists is changed
    or removed by a run, and every name whose download returned success
    has its file at the end. *)
Theorem C10_same_name_skipped_after_success fuel year w :
  let w' := snd (process_videos cfg net fuel year w) in
  let evs := new_events w w' in
  (forall link link' name w0,
      is_Some (fs w0 !! file_path cfg name) ->
      download_video cfg net link name w0
      = download_video cfg net link' name w0)
  /\ (forall pre it1 it2 link2 name post,
        evs = pre ++ DownloadCalled it2 link2 name :: post ->
        In (DownloadReturned it1 name true) pre ->
        exists uri rest,
          post = Log INFO (MsgSkipExisting name)
                 :: DownloadReturned it2 name true
                 :: DeleteCalled it2 uri :: ApiDelete uri :: rest)
  /\ (forall it2 v2 uri2 name link2 st1 w1,
        classify year v2 = Eligible uri2 name link2 ->
        is_Some (fs w1 !! file_path cfg name) ->
        let res := process_video cfg net year it2 v2 st1 w1 in
        fs (snd res) = fs w1
        /\ fst res = Ret (if delete_succeeds (api_delete net (clock w1) uri2)
                          then incr_processed st1 else incr_errors st1))
  /\ (forall p c, fs w !! p = Some c -> fs w' !! p = Some c)
  /\ (forall it name,
        In (DownloadReturned it name true) evs ->
        is_Some (fs w' !! file_path cfg name)).
Proof.
  intros w' evs.
  destruct (process_videos_dedup fuel year w) as (seg & Hseg & Hf & Hs).
  assert (evs = seg) as -> by (by apply new_events_app).
  split; [|split; [|split; [|split]]].
  - intros link link' name w0 [c0 Hc0].
    by rewrite !(download_video_present _ _ _ _ Hc0).
  - intros pre it1 it2 link2 name post Heq Hin.
    apply (Hs pre it2 link2 name post Heq). by exists it1.
  - intros it2 v2 uri2 name link2 st1 w1 Hv2 [c Hc] res. subst res.
    rewrite process_video_eq, Hv2.
    by rewrite (download_video_present link2 name
                  (extend w1 [DownloadCalled it2 link2 name]) c Hc).
  - intros p c. apply process_videos_keeps.
  - exact Hf.
Qed.

End Properties.

(** *** Runs, evaluated *)

(** Two pages on a healthy network: the two items named [a/b] are both
    deleted and one file [a_b.mp4] holds the bytes of the first; the item
    of 2023 is skipped; the item without a link and the item with a
    malformed date are errors; the third page is empty and ends the
    run. *)
Example run_on_healthy_network :
  let res :=
    process_videos downloads
      (healthy [[first_ab; second_ab; next_year; no_link; bad_date];
                [no_name; empty_name]]) 5 2022 fresh in
  fst res = Ret (Done {| processed := 4; errors := 2 |})
  /\ map_to_list (fs (snd res))
     = [("downloads/unnamed.mp4", "bytes of https://cdn/6");
        ("downloads/a_b.mp4", "bytes of https://cdn/1");
        ("downloads/.mp4", "bytes of https://cdn/7")]%string
  /\ count is_api_get (trace (snd res)) = 3%nat
  /\ count is_api_delete (trace (snd res)) = 4%nat
  /\ count is_session_get (trace (snd res)) = 3%nat.
Proof. vm_compute. repeat split. Qed.

(** With the pages allowed used up, the loop is still fetching. *)
Example run_out_of_pages :
  fst (process_videos downloads
         (healthy [[first_ab]; [no_name]]) 1 2022 fresh)
  = Ret (FetchingPage 2 {| processed := 1; errors := 0 |}).
Proof. vm_compute. reflexivity. Qed.

(** A listing whose [data] is a number cannot be iterated: the run is
    aborted by the [TypeError] of the [for] statement. *)
Example run_on_unexpected_listing :
  fst (process_videos downloads
         {| api_get := fun _ _ _ => ListResp 200 (Some (JObj [("data", JNum 7)]));
            session_get := fun _ _ => GetRaise;
            api_delete := fun _ _ => DeleteRaise;
            open_wb := fun _ _ => true |} 5 2022 fresh)
  = Raise TypeError.
Proof. vm_compute. reflexivity. Qed.

(** The first call breaks off: it sends a request, removes its partial
    file and returns [False]; the second call sends a request again. *)
Example two_calls_two_requests :
  let r1 :=
    download_video downloads (breaks_at 0 []) (JStr "https://cdn/1") "a_b"
      fresh in
  let r2 :=
    download_video downloads (breaks_at 0 []) (JStr "https://cdn/1") "a_b"
      (snd r1) in
  fst r1 = Ret false
  /\ fs (snd r1) = ∅
  /\ fst r2 = Ret true
  /\ trace (snd r2)
     = [SessionGet (JStr "https://cdn/1"); Progress 5;
        Log ERROR (MsgDownloadFailed "a_b");
        SessionGet (JStr "https://cdn/1"); Progress 9; Progress 13].
Proof. vm_compute. repeat split. Qed.

(** An empty name is kept as it is. *)
Example empty_name_stem :
  video_name_of empty_name = Ret ""%string
  /\ file_path downloads "" = "downloads/.mp4"%string.
Proof. vm_compute. repeat split. Qed.

(** The download of the first [a/b] fails: the first item is kept on
    the server, and the second is transferred and deleted. *)
Example first_download_fails :
  new_events fresh
    (snd (for_videos downloads (breaks_at 0 []) 2022 1 0 [first_ab; second_ab]
            zero fresh))
  = [DownloadCalled (1, 0)%nat (JStr "https://cdn/1") "a_b";
     SessionGet (JStr "https://cdn/1"); Progress 5;
     Log ERROR (MsgDownloadFailed "a_b");
     DownloadReturned (1, 0)%nat "a_b" false;
     DownloadCalled (1, 1)%nat (JStr "https://cdn/2") "a_b";
     SessionGet (JStr "https://cdn/2"); Progress 9; Progress 13;
     DownloadReturned (1, 1)%nat "a_b" true;
     DeleteCalled (1, 1)%nat (JStr "/videos/2");
     ApiDelete (JStr "/videos/2");
     Log INFO (MsgDeleted (JStr "/videos/2"))].
Proof. vm_compute. reflexivity. Qed.

(** **** Where the specification and the code part *)

(** C3, as stated, fails: when the first call breaks off in the middle
    of the body, its partial file is removed, and the second call with
    the same target path sends a second download request. *)
Lemma C3_counterexample_two_transfers : ~ transfers_at_most_once.
Proof.
  intros H.
  specialize (H downloads (breaks_at 0 []) (JStr "https://cdn/1") "a_b"%string
                (JStr "https://cdn/1") "a_b"%string fresh eq_refl).
  vm_compute in H. lia.
Qed.

(** C6, as stated, fails: an empty display name is not replaced by the
    placeholder; its stem is empty and its file is [downloads/.mp4]. *)
Lemma C6_counterexample_empty_name : ~ empty_name_gets_placeholder.
Proof.
  intros H. specialize (H empty_name eq_refl). vm_compute in H.
  discriminate H.
Qed.

(** C10, as stated, fails: when the download of the first of two items
    named [a/b] fails, no file is left for the second to find, and the
    content of the second is transferred. *)
Lemma C10_counterexample_first_download_failed : ~ same_name_always_skipped.
Proof.
  intros H.
  specialize (H downloads (breaks_at 0 []) 2022 1%nat first_ab second_ab
                (JStr "/videos/1") (JStr "/videos/2") "a_b"%string
                (JStr "https://cdn/1") (JStr "https://cdn/2") zero fresh
                eq_refl eq_refl).
  destruct H as (_ & Hnone & _); [discriminate|].
  apply Hnone. vm_compute. auto 10.
Qed.

(** **** The statements at concrete inputs *)

(** C2 on a download that breaks off after its first chunk. *)
Lemma C2_witness_broken_stream :
  fst (download_video downloads (breaks_at 0 []) (JStr "https://cdn/1")
         "a_b" fresh) = Ret false
  /\ fs (snd (download_video downloads (breaks_at 0 []) (JStr "https://cdn/1")
                "a_b" fresh)) !! file_path downloads "a_b" = None.
Proof.
  destruct (C2_failed_download_leaves_no_file downloads (breaks_at 0 [])
              (JStr "https://cdn/1") "a_b" fresh) as [H _].
  - reflexivity.
  - apply H. reflexivity.
Defined.

(** C3 on two calls for one name, the first of which succeeds. *)
Lemma C3_witness_second_call_skips :
  let r1 :=
    download_video downloads (healthy []) (JStr "https://cdn/1") "a_b" fresh in
  download_video downloads (healthy []) (JStr "https://cdn/2") "a_b" (snd r1)
  = (Ret true, extend (snd r1) [Log INFO (MsgSkipExisting "a_b")]).
Proof.
  destruct (C3_skip_rule downloads (healthy []) (JStr "https://cdn/1") "a_b"
              (JStr "https://cdn/2") "a_b" fresh) as (_ & H & _).
  - reflexivity.
  - apply H. vm_compute. reflexivity.
Defined.

(** C4 on a listing that answers with status 500 and on an empty first
    page. *)
Lemma C4_witness_listing_down :
  pagination downloads listing_down 3 2022 1 zero fresh
  = (Ret (Done zero),
     extend (ticked fresh) [ApiGet 1; Log ERROR (MsgFetchError 1)])
  /\ pagination downloads (healthy []) 3 2022 1 zero fresh
     = (Ret (Done zero), extend (ticked fresh) [ApiGet 1]).
Proof.
  split.
  - apply (C4_failed_listing_ends_pagination downloads listing_down
             2 2022 1 zero fresh). exact I.
  - apply (C4_failed_listing_ends_pagination downloads (healthy [])
             2 2022 1 zero fresh). reflexivity.
Defined.

(** C5 on one item of each kind. *)
Lemma C5_witness_counters :
  process_video downloads (healthy []) 2022 (1, 0)%nat next_year zero fresh
  = (Ret zero, fresh)
  /\ fst (process_video downloads (healthy []) 2022 (1, 0)%nat no_link zero fresh)
     = Ret {| processed := 0; errors := 1 |}
  /\ fst (process_video downloads (breaks_at 0 []) 2022 (1, 0)%nat first_ab
            zero fresh)
     = Ret {| processed := 0; errors := 1 |}
  /\ fst (process_video downloads (healthy []) 2022 (1, 0)%nat first_ab
            zero fresh)
     = Ret {| processed := 1; errors := 0 |}
  /\ fst (process_video downloads (refuses_delete []) 2022 (1, 0)%nat first_ab
            zero fresh)
     = Ret {| processed := 0; errors := 1 |}.
Proof.
  assert (in_year 2022 first_ab) as Hy1.
  { eexists. split; [vm_compute; reflexivity|reflexivity]. }
  assert (described first_ab (JStr "/videos/1") "a_b") as Hd1 by (by split).
  assert (has_link first_ab (JStr "https://cdn/1")) as Hl1 by (by split).
  split; [|split; [|split; [|split]]].
  - destruct (C5_counter_updates downloads (healthy []) 2022 (1, 0)%nat
                next_year zero fresh) as (H & _).
    apply H. eexists. split; [vm_compute; reflexivity|]. cbn. discriminate.
  - destruct (C5_counter_updates downloads (healthy []) 2022 (1, 0)%nat
                no_link zero fresh) as (_ & H & _).
    apply (H (JStr "/videos/4") "d"%string).
    + eexists. split; [vm_compute; reflexivity|reflexivity].
    + by split.
    + reflexivity.
  - destruct (C5_counter_updates downloads (breaks_at 0 []) 2022 (1, 0)%nat
                first_ab zero fresh) as (_ & _ & H & _).
    destruct (H _ _ _ Hy1 Hd1 Hl1) as (Hf & _).
    apply Hf. vm_compute. reflexivity.
  - destruct (C5_counter_updates downloads (healthy []) 2022 (1, 0)%nat
                first_ab zero fresh) as (_ & _ & H & _).
    destruct (H _ _ _ Hy1 Hd1 Hl1) as (_ & Hp & _).
    rewrite Hp; [reflexivity|vm_compute; reflexivity..].
  - destruct (C5_counter_updates downloads (refuses_delete []) 2022 (1, 0)%nat
                first_ab zero fresh) as (_ & _ & H & _).
    destruct (H _ _ _ Hy1 Hd1 Hl1) as (_ & _ & He).
    destruct He as [-> _]; [vm_compute; reflexivity..|reflexivity].
Defined.

(** C6 on the names [a/b], none and empty. *)
Lemma C6_witness_a_b :
  video_name_of first_ab = Ret "a_b"%string
  /\ video_name_of no_name = Ret "unnamed"%string
  /\ video_name_of empty_name = Ret ""%string
  /\ file_path downloads "a_b" = "downloads/a_b.mp4"%string.
Proof.
  destruct (C6_target_path downloads) as (H1 & _ & _ & H4 & H5 & H6).
  split; [|split; [|split]].
  - apply (H1 first_ab "a/b"%string). reflexivity.
  - apply H4. reflexivity.
  - apply H5. reflexivity.
  - apply H6; [discriminate|reflexivity|reflexivity].
Defined.

(** C8 on the last second of 2022 and the first of 2023. *)
Lemma C8_witness_boundary :
  in_year 2022 first_ab
  /\ process_video downloads (healthy []) 2022 (1, 0)%nat next_year zero fresh
     = (Ret zero, fresh).
Proof.
  split.
  - apply (C8_year_filter_boundary downloads (healthy []) (1, 0)%nat
             first_ab zero fresh). reflexivity.
  - apply (C8_year_filter_boundary downloads (healthy []) (1, 0)%nat
             next_year zero fresh). reflexivity.
Defined.

(** C9 on an item whose creation timestamp is not a date. *)
Lemma C9_witness_bad_date :
  process_video downloads (healthy []) 2022 (1, 0)%nat bad_date zero fresh
  = (Ret {| processed := 0; errors := 1 |},
     extend fresh [Log ERROR MsgProcessingError])
  /\ for_videos downloads (healthy []) 2022 1 0 [bad_date; first_ab] zero fresh
     = for_videos downloads (healthy []) 2022 1 1 [first_ab]
         {| processed := 0; errors := 1 |}
         (extend fresh [Log ERROR MsgProcessingError]).
Proof.
  destruct (C9_item_exception_is_isolated downloads (healthy []) 2022 1%nat
              0%nat bad_date [first_ab] zero fresh) as (H & Hdate & _).
  apply (H ValueError fresh). apply Hdate. reflexivity.
Defined.

(** C10 on a run in which the second [a/b] comes on the page after the
    first. *)
Lemma C10_witness_second_ab :
  let res :=
    process_videos downloads (healthy [[first_ab; next_year]; [second_ab]])
      5 2022 fresh in
  (exists uri rest,
      [Log INFO (MsgSkipExisting "a_b");
       DownloadReturned (2, 0)%nat "a_b" true;
       DeleteCalled (2, 0)%nat (JStr "/videos/2");
       ApiDelete (JStr "/videos/2");
       Log INFO (MsgDeleted (JStr "/videos/2")); ApiGet 3;
       Log INFO (MsgComplete 2 0)]
      = Log INFO (MsgSkipExisting "a_b")
        :: DownloadReturned (2, 0)%nat "a_b" true
        :: DeleteCalled (2, 0)%nat uri :: ApiDelete uri :: rest)
  /\ is_Some (fs (snd res) !! file_path downloads "a_b").
Proof.
  destruct (C10_same_name_skipped_after_success downloads
              (healthy [[first_ab; next_year]; [second_ab]]) 5 2022 fresh)
    as (_ & Hskip & _ & _ & Hfile).
  split.
  - apply (Hskip
             [ApiGet 1;
              DownloadCalled (1, 0)%nat (JStr "https://cdn/1") "a_b";
              SessionGet (JStr "https://cdn/1"); Progress 9; Progress 13;
              DownloadReturned (1, 0)%nat "a_b" true;
              DeleteCalled (1, 0)%nat (JStr "/videos/1");
              ApiDelete (JStr "/videos/1");
              Log INFO (MsgDeleted (JStr "/videos/1")); ApiGet 2]
             (1, 0)%nat (2, 0)%nat (JStr "https://cdn/2") "a_b"%string).
    + vm_compute. reflexivity.
    + cbn. auto 10.
  - apply (Hfile (1, 0)%nat). vm_compute. auto 10.
Defined.

(** *** Further properties of the code *)

(** **** Start-up *)

Lemma In_missing_vars environ var :
  In var (missing_vars environ)
  <-> In var required_vars
      /\ (environ !! var = None \/ environ !! var = Some ""%string).
Proof.
  unfold missing_vars. rewrite List.filter_In. unfold unset.
  split; intros [Hin H]; (split; [done|]).
  - destruct (environ !! var) as [v|]; [|by left].
    right. by apply String.eqb_eq in H as ->.
  - by destruct H as [-> | ->].
Qed.

(** X1. [_validate_env_vars] accepts the environment exactly when each of
    the three credentials is set to a string that is not empty.
    Otherwise it raises, and its message names exactly the credentials
    that are unset or empty, in the order token, key, secret. *)
Theorem X1_validate_env_vars environ :
  (forall var,
      In var (missing_vars environ)
      <-> In var required_vars
          /\ (environ !! var = None \/ environ !! var = Some ""%string))
  /\ sublist (missing_vars environ) required_vars
  /\ (_validate_env_vars environ = inr tt
      <-> forall var,
          In var required_vars ->
          exists v, environ !! var = Some v /\ v <> ""%string)
  /\ (missing_vars environ <> [] ->
      _validate_env_vars environ
      = inl (EnvironmentError
               (String.append "Missing required environment variables: "
                  (join_comma (missing_vars environ))))).
Proof.
  split; [apply In_missing_vars|]. split; [|split].
  - unfold missing_vars. induction required_vars as [|x l IH]; cbn.
    + constructor.
    + destruct (unset environ x); by constructor.
  - unfold _validate_env_vars.
    destruct (missing_vars environ) as [|x l] eqn:Hm.
    + split; [|done]. intros _ var Hvar.
      destruct (environ !! var) as [v|] eqn:Hv.
      * exists v. split; [done|]. intros ->.
        assert (In var (missing_vars environ)) as Hin
            by (apply In_missing_vars; auto).
        by rewrite Hm in Hin.
      * assert (In var (missing_vars environ)) as Hin
            by (apply In_missing_vars; auto).
        by rewrite Hm in Hin.
    + split; [done|]. intros Hall. exfalso.
      assert (In x (missing_vars environ)) as Hin by (rewrite Hm; by left).
      apply In_missing_vars in Hin as [Hreq Hx].
      destruct (Hall x Hreq) as (v & Hv & Hne).
      destruct Hx as [Hx|Hx]; congruence.
  - unfold _validate_env_vars.
    by destruct (missing_vars environ).
Qed.

(** X2. When a credential is unset or empty, the main block ends in its
    handler with the error of [_validate_env_vars]: nothing is requested,
    no file is touched and nothing else is logged, whatever the other
    variables hold and whatever the network would answer. *)
Theorem X2_missing_credential_stops_everything int h net fuel w var :
  In var required_vars ->
  environ h !! var = None \/ environ h !! var = Some ""%string ->
  main int h net fuel w
  = (inl (StartupFailed
            (EnvironmentError
               (String.append "Missing required environment variables: "
                  (join_comma (missing_vars (environ h)))))), w)
  /\ In var (missing_vars (environ h)).
Proof.
  intros Hreq Hvar.
  assert (In var (missing_vars (environ h))) as Hin
      by (apply In_missing_vars; auto).
  split; [|done]. unfold main, __init__, _validate_env_vars.
  by destruct (missing_vars (environ h)).
Qed.

(** X3. With the credentials set: when [DOWNLOAD_DIR], [PER_PAGE] and
    [MAX_RETRIES] are unset and the directory can be made, the main block
    is [process_videos(year=2022)] on the directory [downloads] with 100
    items a page; a [PER_PAGE] that [int] rejects, and a directory that
    cannot be made, end the main block before anything is requested. *)
Theorem X3_main_defaults_and_startup_errors int h net fuel w :
  _validate_env_vars (environ h) = inr tt ->
  (environ h !! "DOWNLOAD_DIR"%string = None ->
   environ h !! "PER_PAGE"%string = None ->
   environ h !! "MAX_RETRIES"%string = None ->
   makedirs h "downloads" = true ->
   main int h net fuel w
   = match process_videos downloads net fuel 2022 w with
     | (Ret r, w') => (inr r, w')
     | (Raise e, w') => (inl (RunFailed e), w')
     end)
  /\ (forall v e,
        environ h !! "PER_PAGE"%string = Some v -> int v = Raise e ->
        main int h net fuel w = (inl (StartupFailed (IntValueError v)), w))
  /\ (forall dir per_page retries,
        getenv_int int (environ h) "PER_PAGE" 100 = inr per_page ->
        getenv_int int (environ h) "MAX_RETRIES" 3 = inr retries ->
        dir = default "downloads"%string (environ h !! "DOWNLOAD_DIR"%string) ->
        makedirs h dir = false ->
        main int h net fuel w = (inl (StartupFailed (MakedirsError dir)), w)).
Proof.
  intros Hok. unfold main, __init__. rewrite Hok. split; [|split].
  - intros Hd Hp Hm Hmk. unfold getenv_int. rewrite Hd, Hp, Hm. cbn [default].
    by rewrite Hmk.
  - intros v e Hp He. unfold getenv_int at 1. by rewrite Hp, He.
  - intros dir per_page retries -> -> -> Hmk. by rewrite Hmk.
Qed.

Section Further.
Variable cfg : config.
Variable net : env.

(** **** [_get_videos] *)

(** X4. [_get_videos] never raises, asks the API exactly once and leaves
    the files alone.  Whatever goes wrong (the request raises, the status
    is an error, the body is not JSON or not a dictionary) it logs one
    error and returns [None]; a dictionary without [data] gives the empty
    list. *)
Theorem X4_get_videos_never_raises page w :
  let answer := api_get net (clock w) page (per_page cfg) in
  let r := _get_videos cfg net page w in
  (exists data, fst r = Ret data)
  /\ fs (snd r) = fs w
  /\ clock (snd r) = S (clock w)
  /\ pages_requested (new_events w (snd r)) = [page]
  /\ (raises (listing answer) ->
      fst r = Ret JNull
      /\ new_events w (snd r) = [ApiGet page; Log ERROR (MsgFetchError page)])
  /\ (forall status items,
        answer = ListResp status (Some (JObj items)) ->
        status < 400 \/ 600 <= status ->
        fst r = Ret (default (JArr []) (assoc "data" items))
        /\ new_events w (snd r) = [ApiGet page]).
Proof.
  intros answer r. subst r. rewrite _get_videos_eq. fold answer.
  split; [|split; [|split; [|split; [|split]]]].
  - destruct (listing answer); cbn; eauto.
  - by destruct (listing answer).
  - by destruct (listing answer).
  - destruct (listing answer); cbn [snd];
      by rewrite new_events_ticked_extend.
  - destruct (listing answer); [done|]. intros _. cbn [fst snd].
    by rewrite new_events_ticked_extend.
  - intros status items Hans Hstatus.
    assert (listing answer = Ret (default (JArr []) (assoc "data" items)))
      as ->.
    { rewrite Hans. cbn.
      assert ((400 <=? status) && (status <? 600) = false) as ->
          by (apply andb_false_iff; lia).
      by destruct (assoc "data" items). }
    cbn [fst snd]. by rewrite new_events_ticked_extend.
Qed.

(** **** [_get_download_link] *)

(** X5. [_get_download_link] asks nothing and touches no file.  It
    returns the link of the first download entry when there is one.  A
    dictionary without [download], with an empty list of entries, or
    whose first entry has no [link], gives [None] and one warning that
    names the [uri] of the video, or [unknown] when it has none.  But a
    [download] that is [None], a number or a boolean is not caught: the
    [TypeError] leaves the function. *)
Theorem X5_get_download_link video w :
  let r := _get_download_link video w in
  fs (snd r) = fs w
  /\ clock (snd r) = clock w
  /\ (forall link, download_link_of video = Ret link -> r = (Ret link, w))
  /\ (forall items,
        video = JObj items ->
        assoc "download" items = None
        \/ assoc "download" items = Some (JArr [])
        \/ (exists entry rest,
               assoc "download" items = Some (JArr (JObj entry :: rest))
               /\ assoc "link" entry = None) ->
        r = (Ret JNull,
             extend w [Log WARNING
                         (MsgNoDownloadLink
                            (default (JStr "unknown") (assoc "uri" items)))]))
  /\ (forall items d,
        video = JObj items ->
        assoc "download" items = Some d ->
        d = JNull \/ (exists b, d = JBool b) \/ (exists n, d = JNum n) ->
        r = (Raise TypeError, w)).
Proof.
  intros r. subst r. unfold _get_download_link. mred.
  split; [|split; [|split; [|split]]].
  - destruct (download_link_of video) as [link|e]; [done|].
    destruct (key_or_index_error e); [|done].
    by destruct (dict_get video "uri" (JStr "unknown")).
  - destruct (download_link_of video) as [link|e]; [done|].
    destruct (key_or_index_error e); [|done].
    by destruct (dict_get video "uri" (JStr "unknown")).
  - by intros link ->.
  - intros items -> Hd.
    assert (exists e, download_link_of (JObj items) = Raise e
                      /\ key_or_index_error e = true) as (e & -> & ->).
    { unfold download_link_of. cbn.
      destruct Hd as [->|[->|(entry & rest & -> & Hl)]]; cbn; eauto.
      rewrite Hl. eauto. }
    cbn. by destruct (assoc "uri" items).
  - intros items d -> Hd Hkind.
    assert (download_link_of (JObj items) = Raise TypeError) as ->.
    { unfold download_link_of. cbn. rewrite Hd. cbn.
      by destruct Hkind as [->|[[b ->]|[n ->]]]. }
    done.
Qed.

(** **** [download_video] *)

Lemma length_append (a b : string) :
  String.length (String.append a b) = (String.length a + String.length b)%nat.
Proof.
  induction a as [|x a IH]; [done|].
  rewrite append_cons. cbn [String.length]. by rewrite IH.
Qed.

Lemma progress_total_app evs evs' :
  progress_total (evs ++ evs')
  = (progress_total evs + progress_total evs')%nat.
Proof.
  induction evs as [|e evs IH]; [done|].
  cbn [app progress_total]. destruct e; rewrite IH; lia.
Qed.

Lemma progress_total_progress_of chunks :
  progress_total (progress_of chunks) = String.length (content chunks).
Proof.
  induction chunks as [|chunk rest IH]; [done|].
  change (progress_of (chunk :: rest))
    with ((if String.eqb chunk "" then []
           else [Progress (String.length chunk)]) ++ progress_of rest)%list.
  change (content (chunk :: rest))
    with (String.append chunk (content rest)).
  rewrite progress_total_app, length_append, IH.
  destruct (String.eqb_spec chunk "") as [->|Hne]; cbn; lia.
Qed.

Lemma download_video_of_transfer link name w :
  exists seg,
    trace (snd (download_video cfg net link name w)) = trace w ++ seg
    /\ Forall (fun e => of_transfer e = true) seg.
Proof.
  destruct (fs w !! file_path cfg name) as [c|] eqn:Hc.
  - rewrite (download_video_present _ _ _ _ _ _ Hc). cbn.
    eexists; split; [done|]. by repeat constructor.
  - rewrite (download_video_absent _ _ _ _ _ Hc). cbn.
    eexists; split; [done|]. unfold transfer_events.
    constructor; [done|]. apply Forall_app. split.
    + destruct (rejected _ || negb _); [constructor|].
      induction (body_of _) as [|chunk rest IH]; [constructor|].
      change (progress_of (chunk :: rest))
        with ((if String.eqb chunk "" then []
               else [Progress (String.length chunk)]) ++ progress_of rest)%list.
      destruct (String.eqb chunk ""); [done|]. by constructor.
    + destruct (transfer_fails _ _); by repeat constructor.
Qed.

Lemma count_none p evs :
  Forall (fun e => p e = false) evs -> count p evs = 0%nat.
Proof.
  unfold count. induction 1 as [|e evs He _ IH]; [done|].
  cbn. by rewrite He.
Qed.

Lemma of_transfer_none p evs :
  (forall e, of_transfer e = true -> p e = false) ->
  Forall (fun e => of_transfer e = true) evs -> count p evs = 0%nat.
Proof.
  intros Hp Hevs. apply count_none.
  eapply Forall_impl; [exact Hevs|]. exact Hp.
Qed.

(** X6. [download_video] writes nowhere but at its target path: every
    other path keeps its file, or stays without one; and a call that
    returns [False] leaves the files exactly as they were. *)
Theorem X6_download_video_writes_only_its_target link name w :
  let r := download_video cfg net link name w in
  (forall p, p <> file_path cfg name -> fs (snd r) !! p = fs w !! p)
  /\ (fst r = Ret false -> fs (snd r) = fs w).
Proof.
  intros r. subst r.
  destruct (fs w !! file_path cfg name) as [c|] eqn:Hc.
  - by rewrite (download_video_present _ _ _ _ _ _ Hc).
  - rewrite (download_video_absent _ _ _ _ _ Hc). cbn [fst snd fs].
    destruct (transfer_fails _ _); [done|]. split; [|done].
    intros p Hp. by rewrite lookup_insert_ne.
Qed.

(** X7. The progress bar counts what is written: after a download that
    found no file and left one, the bytes reported to the progress bar
    add up to the length of the file.  Empty chunks are neither written
    nor counted. *)
Theorem X7_progress_counts_the_bytes_written link name w c :
  fs w !! file_path cfg name = None ->
  let r := download_video cfg net link name w in
  fs (snd r) !! file_path cfg name = Some c ->
  progress_total (new_events w (snd r)) = String.length c.
Proof.
  intros Hc r. subst r.
  rewrite (download_video_absent _ _ _ _ _ Hc). cbn [snd fs trace].
  unfold new_events. cbn [trace]. rewrite drop_app_length.
  unfold transfer_events.
  set (r := session_get net (clock w) link).
  set (opened := open_wb net (S (clock w)) (file_path cfg name)).
  destruct (transfer_fails r opened) eqn:Hf; [by rewrite Hc|].
  rewrite lookup_insert_eq. intros [= <-].
  assert (rejected r || negb opened = false) as ->.
  { destruct r as [|status cl chunks complete]; [done|].
    cbn in *. destruct ((400 <=? status) && (status <? 600)); [done|].
    destruct cl; cbn in *; try done; by destruct opened. }
  cbn [progress_total]. rewrite app_nil_r.
  apply progress_total_progress_of.
Qed.

(** X8. One call of [download_video] sends one download request when no
    file is at the target path and none when there is one; it never asks
    for a listing or a deletion. *)
Theorem X8_download_video_requests link name w :
  let evs := new_events w (snd (download_video cfg net link name w)) in
  count is_session_get evs
  = match fs w !! file_path cfg name with Some _ => 0 | None => 1 end%nat
  /\ count is_api_get evs = 0%nat
  /\ count is_api_delete evs = 0%nat.
Proof.
  intros evs.
  destruct (download_video_of_transfer link name w) as (seg & Hseg & Hall).
  assert (evs = seg) as Hevs by (by apply new_events_app).
  split; [|split].
  - subst evs. destruct (fs w !! file_path cfg name) as [c|] eqn:Hc.
    + rewrite (download_video_present _ _ _ _ _ _ Hc). cbn [snd].
      by rewrite new_events_extend.
    + rewrite (download_video_absent _ _ _ _ _ Hc). cbn [snd].
      unfold new_events. cbn [trace]. rewrite drop_app_length.
      apply count_session_get_transfer.
  - rewrite Hevs. apply of_transfer_none; [|done]. by intros [].
  - rewrite Hevs. apply of_transfer_none; [|done]. by intros [].
Qed.

(** **** The counters and the requests of a page *)

Lemma count_cons p e evs :
  count p (e :: evs) = ((if p e then 1 else 0) + count p evs)%nat.
Proof. unfold count. cbn. by destruct (p e). Qed.

Lemma pages_requested_app evs evs' :
  pages_requested (evs ++ evs') = pages_requested evs ++ pages_requested evs'.
Proof.
  induction evs as [|e evs IH]; [done|].
  cbn [app pages_requested]. destruct e; by rewrite IH.
Qed.

Lemma of_transfer_counts evs :
  Forall (fun e => of_transfer e = true) evs ->
  count is_deleted_log evs = 0%nat
  /\ count is_api_delete evs = 0%nat
  /\ count is_returned_ok evs = 0%nat
  /\ pages_requested evs = [].
Proof.
  intros Hall. repeat split.
  1-3: apply of_transfer_none; [|done]; intros e He;
       destruct e as [| | | |lv m| | |]; try done; by destruct lv, m.
  induction Hall as [|e evs He _ IH]; [done|].
  by destruct e.
Qed.

Lemma download_video_shape link name w :
  exists seg,
    trace (snd (download_video cfg net link name w)) = trace w ++ seg
    /\ Forall (fun e => of_transfer e = true) seg
    /\ (count is_session_get seg <= 1)%nat.
Proof.
  destruct (download_video_of_transfer link name w) as (seg & Hseg & Hall).
  exists seg. split; [done|]. split; [done|].
  assert (new_events w (snd (download_video cfg net link name w)) = seg)
    as <- by (by apply new_events_app).
  destruct (fs w !! file_path cfg name) as [c|] eqn:Hc.
  - rewrite (download_video_present _ _ _ _ _ _ Hc). cbn [snd].
    rewrite new_events_extend. cbn. lia.
  - rewrite (download_video_absent _ _ _ _ _ Hc). cbn [snd].
    unfold new_events. cbn [trace]. rewrite drop_app_length.
    by rewrite count_session_get_transfer.
Qed.

(** what one turn of the loop does to the counters and to the trace *)
Lemma process_video_account year it video st w :
  exists st' seg,
    fst (process_video cfg net year it video st w) = Ret st'
    /\ trace (snd (process_video cfg net year it video st w)) = trace w ++ seg
    /\ processed st' = (processed st + count is_deleted_log seg)%nat
    /\ (errors st' + processed st'
        = errors st + processed st
          + (if counted year video then 1 else 0))%nat
    /\ (errors st <= errors st')%nat
    /\ count is_api_delete seg = count is_returned_ok seg
    /\ (count is_deleted_log seg <= count is_api_delete seg)%nat
    /\ (count is_api_delete seg <= if counted year video then 1 else 0)%nat
    /\ (count is_session_get seg <= if counted year video then 1 else 0)%nat
    /\ pages_requested seg = [].
Proof.
  rewrite process_video_eq. unfold counted.
  destruct (classify year video) as [e| |uri| |uri name link].
  { exists (incr_errors st), [Log ERROR MsgProcessingError].
    cbn. repeat split; lia. }
  { exists st, []. cbn. rewrite app_nil_r. repeat split; lia. }
  { exists (incr_errors st), [Log WARNING (MsgNoDownloadLink uri)].
    cbn. repeat split; lia. }
  { exists (incr_errors st), []. cbn. rewrite app_nil_r. repeat split; lia. }
  destruct (download_video_shape link name
              (extend w [DownloadCalled it link name]))
    as (dl & Hdl & Hall & Hget).
  destruct (of_transfer_counts dl Hall) as (Hd0 & Ha0 & Hr0 & Hp0).
  destruct (download_video cfg net link name _) as [[[|]|e] w'];
    cbn [fst snd trace extend ticked] in *; rewrite Hdl, <- !app_assoc;
    eexists _, _; (split; [done|]); (split; [done|]); cbn [app];
    rewrite ?count_cons, ?count_app, ?count_cons, ?pages_requested_app,
      ?Hd0, ?Ha0, ?Hr0, ?Hp0; cbn [is_deleted_log is_api_delete
      is_returned_ok is_session_get pages_requested app].
  - unfold delete_log, delete_succeeds.
    destruct (api_delete net (clock w') uri) as [|status];
      [|destruct (status =? 204)]; cbn; repeat split;
      rewrite ?pages_requested_app, ?Hp0; cbn; lia || done.
  - cbn. repeat split; rewrite ?pages_requested_app, ?Hp0; cbn; lia || done.
  - cbn. repeat split; rewrite ?pages_requested_app, ?Hp0; cbn; lia || done.
Qed.

Lemma for_videos_account year page i videos st w :
  exists st' seg,
    fst (for_videos cfg net year page i videos st w) = Ret st'
    /\ trace (snd (for_videos cfg net year page i videos st w)) = trace w ++ seg
    /\ processed st' = (processed st + count is_deleted_log seg)%nat
    /\ (errors st' + processed st'
        = errors st + processed st
          + length (List.filter (counted year) videos))%nat
    /\ (errors st <= errors st')%nat
    /\ count is_api_delete seg = count is_returned_ok seg
    /\ (count is_deleted_log seg <= count is_api_delete seg)%nat
    /\ (count is_api_delete seg
        <= length (List.filter (counted year) videos))%nat
    /\ (count is_session_get seg
        <= length (List.filter (counted year) videos))%nat
    /\ pages_requested seg = [].
Proof.
  revert i st w. induction videos as [|video rest IH]; intros i st w.
  - exists st, []. cbn. rewrite app_nil_r. repeat split; lia.
  - cbn [for_videos]. unfold bind.
    destruct (process_video_account year (page, i) video st w)
      as (st1 & seg1 & H1 & Ht1 & Hp1 & Hs1 & He1 & Hd1 & Hl1 & Ha1 & Hg1 & Hq1).
    destruct (process_video cfg net year (page, i) video st w) as [o w1].
    cbn [fst snd] in H1, Ht1. subst o.
    destruct (IH (S i) st1 w1)
      as (st2 & seg2 & H2 & Ht2 & Hp2 & Hs2 & He2 & Hd2 & Hl2 & Ha2 & Hg2 & Hq2).
    exists st2, (seg1 ++ seg2).
    split; [done|]. split; [by rewrite Ht2, Ht1, app_assoc|].
    rewrite !count_app, pages_requested_app, Hq1, Hq2.
    cbn [List.filter]. destruct (counted year video); cbn [length];
      repeat split; lia.
Qed.

(** X9. Every item of a page that is not filtered out by the year is
    counted exactly once: after the loop over a page, [processed] and
    [errors] together have grown by the number of such items, and
    neither counter has gone down. *)
Theorem X9_page_counters year page i videos st w :
  exists st',
    fst (for_videos cfg net year page i videos st w) = Ret st'
    /\ (processed st' + errors st'
        = processed st + errors st
          + length (List.filter (counted year) videos))%nat
    /\ (processed st <= processed st')%nat
    /\ (errors st <= errors st')%nat.
Proof.
  destruct (for_videos_account year page i videos st w)
    as (st' & seg & H & _ & Hp & Hs & He & _).
  exists st'. repeat split; [done|lia..].
Qed.

(** X10. A page of [n] items gives rise to at most [n] download requests
    and at most [n] deletion requests, to as many deletion requests as
    downloads returned success, and to no listing request. *)
Theorem X10_page_requests year page i videos st w :
  let evs :=
    new_events w (snd (for_videos cfg net year page i videos st w)) in
  (count is_session_get evs <= length videos)%nat
  /\ (count is_api_delete evs <= length videos)%nat
  /\ count is_api_delete evs = count is_returned_ok evs
  /\ count is_api_get evs = 0%nat.
Proof.
  intros evs.
  destruct (for_videos_account year page i videos st w)
    as (st' & seg & _ & Ht & _ & _ & _ & Hd & _ & Ha & Hg & Hq).
  assert (evs = seg) as -> by (by apply new_events_app).
  pose proof (List.filter_length_le (counted year) videos) as Hle.
  repeat split; [lia|lia|done|].
  clear - Hq. induction seg as [|e seg IH]; [done|].
  rewrite count_cons. destruct e; cbn in *; try done; by apply IH.
Qed.

(** **** The run as a whole *)

Lemma pagination_account fuel year page st w :
  exists seg k,
    trace (snd (pagination cfg net fuel year page st w)) = trace w ++ seg
    /\ (k <= fuel)%nat
    /\ pages_requested seg = seq page k
    /\ count is_api_delete seg = count is_returned_ok seg
    /\ (count is_deleted_log seg <= count is_api_delete seg)%nat
    /\ (forall st',
          fst (pagination cfg net fuel year page st w) = Ret (Done st') ->
          processed st' = (processed st + count is_deleted_log seg)%nat
          /\ (errors st <= errors st')%nat /\ (1 <= k)%nat)
    /\ (forall p st',
          fst (pagination cfg net fuel year page st w)
          = Ret (FetchingPage p st') ->
          processed st' = (processed st + count is_deleted_log seg)%nat
          /\ (errors st <= errors st')%nat
          /\ p = (page + k)%nat /\ k = fuel).
Proof.
  revert page st w. induction fuel as [|fuel IH]; intros page st w.
  - exists [], 0%nat. cbn. rewrite app_nil_r.
    repeat split; try done; try lia.
    all: intros; simplify_eq; cbn; lia.
  - rewrite pagination_S. cbn zeta.
    set (seg0 := match listing (api_get net (clock w) page (per_page cfg)) with
                 | Ret _ => [ApiGet page]
                 | Raise _ => [ApiGet page; Log ERROR (MsgFetchError page)]
                 end).
    assert (pages_requested seg0 = [page]
            /\ count is_api_delete seg0 = 0%nat
            /\ count is_returned_ok seg0 = 0%nat
            /\ count is_deleted_log seg0 = 0%nat) as (Hq0 & Ha0 & Hr0 & Hd0)
        by (subst seg0; by destruct (listing _)).
    destruct (truthy _).
    2: { exists seg0, 1%nat. cbn [fst snd extend trace].
         rewrite Hq0, Ha0, Hr0, Hd0.
         repeat split; try done; try lia.
         all: intros; simplify_eq; cbn; lia. }
    destruct (iter _) as [items|e].
    2: { exists seg0, 1%nat. cbn [fst snd extend trace].
         rewrite Hq0, Ha0, Hr0, Hd0.
         repeat split; try done; lia. }
    destruct (for_videos_account year page 0 items st
                (extend (ticked w) seg0))
      as (st1 & seg1 & H1 & Ht1 & Hp1 & _ & He1 & Hd1 & Hl1 & _ & _ & Hq1).
    destruct (for_videos cfg net year page 0 items st _) as [o w1].
    cbn [fst snd extend trace ticked] in H1, Ht1. subst o.
    destruct (IH (S page) st1 w1)
      as (seg2 & k & Ht2 & Hk & Hq2 & Hd2 & Hl2 & Hdone & Hfetch).
    exists (seg0 ++ seg1 ++ seg2), (S k).
    rewrite Ht2, Ht1, <- !app_assoc, !pages_requested_app, !count_app.
    rewrite Hq0, Hq1, Hq2, Ha0, Hr0, Hd0.
    split; [done|]. split; [lia|]. split; [done|]. split; [lia|].
    split; [lia|]. split.
    + intros st' Hst'. destruct (Hdone st' Hst') as (? & ? & ?). lia.
    + intros p st' Hst'. destruct (Hfetch p st' Hst') as (? & ? & ? & ?). lia.
Qed.

(** X11. When the loop has ended, the number reported as success is the
    number of deletions the API accepted in this run: [processed] equals
    the number of log lines of a successful deletion, which is at most
    the number of deletion requests, itself the number of downloads that
    returned success; and the last thing the run does is to log the
    summary with the two counters. *)
Theorem X11_success_counts_accepted_deletions fuel year w st' :
  fst (process_videos cfg net fuel year w) = Ret (Done st') ->
  let evs := new_events w (snd (process_videos cfg net fuel year w)) in
  processed st' = count is_deleted_log evs
  /\ (count is_deleted_log evs <= count is_api_delete evs)%nat
  /\ count is_api_delete evs = count is_returned_ok evs
  /\ last evs = Some (Log INFO (MsgComplete (processed st') (errors st'))).
Proof.
  rewrite process_videos_eq.
  destruct (pagination_account fuel year 1 {| processed := 0; errors := 0 |} w)
    as (seg & k & Ht & _ & _ & Hd & Hl & Hdone & _).
  destruct (pagination cfg net fuel year 1 _ w) as [[[p st|st]|e] w1];
    cbn [fst snd] in *; try done.
  intros [= ->]. destruct (Hdone st' eq_refl) as (Hp & _ & _).
  cbn [processed] in Hp.
  erewrite new_events_app
    by (cbn [extend trace]; rewrite Ht, <- app_assoc; reflexivity).
  rewrite !count_app, last_snoc. cbn. repeat split; try done; lia.
Qed.

(** X12. The pages are asked for one by one from page 1, in increasing
    order, each once; a run that ended asked for at least one page, and
    a run stopped by the bound on the pages has asked for that many and
    would ask for the next one. *)
Theorem X12_pages_in_order fuel year w :
  let r := process_videos cfg net fuel year w in
  exists k,
    (k <= fuel)%nat
    /\ pages_requested (new_events w (snd r)) = seq 1 k
    /\ (forall st', fst r = Ret (Done st') -> (1 <= k)%nat)
    /\ (forall p st',
          fst r = Ret (FetchingPage p st') -> p = S k /\ k = fuel).
Proof.
  intros r. subst r. rewrite process_videos_eq.
  destruct (pagination_account fuel year 1 {| processed := 0; errors := 0 |} w)
    as (seg & k & Ht & Hk & Hq & _ & _ & Hdone & Hfetch).
  exists k. split; [done|].
  destruct (pagination cfg net fuel year 1 _ w) as [[[p st|st]|e] w1];
    cbn [fst snd] in *.
  - erewrite new_events_app by exact Ht. split; [done|]. split; [done|].
    intros p' st' [= <- <-]. destruct (Hfetch p st eq_refl) as (_ & _ & ? & ?).
    done.
  - erewrite new_events_app
      by (cbn [extend trace]; rewrite Ht, <- app_assoc; reflexivity).
    rewrite pages_requested_app, Hq. cbn. rewrite app_nil_r.
    split; [done|]. split; [|done].
    intros st' _. by destruct (Hdone st eq_refl) as (_ & _ & ?).
  - erewrite new_events_app by exact Ht. by repeat split.
Qed.


(** **** A link that is falsy *)

(** X14. An item in the target year whose first download entry has a
    link that is falsy (the empty string, [None]) adds one to [errors]
    and nothing else happens: no request, no file and, unlike for an
    entry without link, no log line at all. *)
Theorem X14_falsy_link_is_a_silent_error year it video st w uri name link :
  in_year year video -> described video uri name ->
  download_link_of video = Ret link -> truthy link = false ->
  process_video cfg net year it video st w = (Ret (incr_errors st), w).
Proof.
  intros (dt & Hdt & Hy) [Huri Hname] Hlink Hfalsy.
  rewrite process_video_eq. unfold classify.
  rewrite Hdt, Huri, Hname, Hlink, Hfalsy.
  by destruct (Z.eqb_spec (Datetime.year dt) year).
Qed.

(** **** The year of an item *)

Lemma digits_acc_first acc a rest y :
  Datetime.digits_acc acc (String a rest) = Some y ->
  exists d, Datetime.digit a = Some d.
Proof. cbn. destruct (Datetime.digit a); [eauto|done]. Qed.

Lemma digit_not_Z a d :
  Datetime.digit a = Some d -> Ascii.eqb a "Z" = false.
Proof. by destruct a as [[] [] [] [] [] [] [] []]. Qed.






(** **** The target path and the stem *)

Lemma append_inj_r (a b c : string) :
  String.append a c = String.append b c -> a = b.
Proof.
  revert b. induction a as [|x a IH]; intros [|y b] H.
  - done.
  - apply (f_equal String.length) in H.
    rewrite append_nil_l, append_cons in H. cbn in H.
    rewrite length_append in H. lia.
  - apply (f_equal String.length) in H.
    rewrite append_nil_l, append_cons in H. cbn in H.
    rewrite length_append in H. lia.
  - rewrite !append_cons in H. injection H as -> H. by rewrite (IH b H).
Qed.

(** X16. A stem without ['/'] always lands directly in the download
    directory: the target path is the directory, a ['/'] unless the
    directory is empty or ends in one, the stem and [.mp4]; and two such
    stems have the same target path only if they are the same stem.
    [download_video] itself does not check its name: a name that starts
    with ['/'] makes it leave the download directory. *)
Theorem X16_target_path_stays_in_the_directory :
  (forall stem,
      contains "/" stem = false ->
      file_path cfg stem
      = String.append (download_dir cfg)
          (String.append
             (if String.eqb (download_dir cfg) ""
                 || PosixPath.endswith_sep (download_dir cfg)
              then "" else "/")
             (String.append stem ".mp4")))
  /\ (forall stem stem',
        contains "/" stem = false -> contains "/" stem' = false ->
        file_path cfg stem = file_path cfg stem' -> stem = stem')
  /\ (forall name,
        PosixPath.startswith_sep name = true ->
        file_path cfg name = String.append name ".mp4").
Proof.
  assert (forall stem,
             contains "/" stem = false ->
             file_path cfg stem
             = String.append (download_dir cfg)
                 (String.append
                    (if String.eqb (download_dir cfg) ""
                        || PosixPath.endswith_sep (download_dir cfg)
                     then "" else "/")
                    (String.append stem ".mp4"))) as Hpath.
  { intros stem Hstem. unfold file_path, PosixPath.join.
    rewrite (startswith_sep_stem _ Hstem).
    by destruct (_ || _). }
  split; [done|]. split.
  - intros stem stem' Hs Hs'. rewrite (Hpath _ Hs), (Hpath _ Hs').
    intros H. apply String.app_inj in H. apply String.app_inj in H.
    by apply append_inj_r in H.
  - intros name Hname. unfold file_path, PosixPath.join.
    destruct name as [|a name]; [done|].
    rewrite append_cons. cbn in *. by rewrite Hname.
Qed.

(** X17. Making the stem changes nothing but the ['/'] characters: the
    stem is as long as the name, a name without ['/'] is its own stem,
    and making the stem of a stem changes nothing. *)
Theorem X17_stem_of_a_name s :
  String.length (str_replace "/" "_" s) = String.length s
  /\ (contains "/" s = false -> str_replace "/" "_" s = s)
  /\ str_replace "/" "_" (str_replace "/" "_" s) = str_replace "/" "_" s
  /\ forall video,
      getitem video "name" = Ret (JStr s) -> contains "/" s = false ->
      video_name_of video = Ret s.
Proof.
  assert (contains "/" s = false -> str_replace "/" "_" s = s) as Hid.
  { induction s as [|a s IH]; [done|]. cbn.
    destruct (Ascii.eqb a "/"); [done|]. cbn. intros H. by rewrite IH. }
  assert (forall t, str_replace "/" "_" (String "/" t)
                    = String "_" (str_replace "/" "_" t)) as Hslash by done.
  split; [|split; [done|split]].
  - clear Hid. induction s as [|a s IH]; [done|].
    destruct (Ascii.eqb_spec a "/") as [->|Hne].
    + rewrite Hslash. cbn. by rewrite IH.
    + cbn [str_replace]. apply Ascii.eqb_neq in Hne. rewrite Hne. cbn.
      by rewrite IH.
  - clear Hid. induction s as [|a s IH]; [done|].
    destruct (Ascii.eqb_spec a "/") as [->|Hne].
    + rewrite Hslash. cbn [str_replace]. cbn. by rewrite IH.
    + cbn [str_replace]. apply Ascii.eqb_neq in Hne. rewrite Hne.
      cbn [str_replace]. by rewrite Hne, IH.
  - intros video Hname Hs. unfold video_name_of.
    rewrite (getitem_dict_get _ _ _ (JStr "unnamed") Hname). cbn.
    by rewrite Hid.
Qed.

(** **** A timestamp in UTC *)

Lemma two_digits_rest a b v rest :
  Datetime.two_digits (String a (String b "")) = Some (v, ""%string) ->
  Datetime.two_digits (String a (String b rest)) = Some (v, rest).
Proof.
  cbn. destruct (Datetime.digit a); [|done].
  destruct (Datetime.digit b); [|done]. by intros [= <-].
Qed.

Lemma digits_acc_contains c s acc y :
  Datetime.digit c = None ->
  Datetime.digits_acc acc s = Some y -> contains c s = false.
Proof.
  intros Hc. revert acc. induction s as [|a s IH]; intros acc; [done|].
  cbn. destruct (Datetime.digit a) as [v|] eqn:Ha; [|done].
  intros H. rewrite (IH _ H), orb_false_r.
  apply Ascii.eqb_neq. intros ->. congruence.
Qed.

Lemma digits_contains c s y :
  Datetime.digit c = None ->
  Datetime.digits s = Some y -> contains c s = false.
Proof.
  intros Hc. destruct s; [done|]. apply digits_acc_contains. exact Hc.
Qed.

Lemma two_digits_contains c a b v :
  Datetime.digit c = None ->
  Datetime.two_digits (String a (String b "")) = Some (v, ""%string) ->
  Ascii.eqb a c = false /\ Ascii.eqb b c = false.
Proof.
  intros Hc. cbn.
  destruct (Datetime.digit a) eqn:Ha; [|done].
  destruct (Datetime.digit b) eqn:Hb; [|done]. intros _.
  split; apply Ascii.eqb_neq; intros ->; congruence.
Qed.

Lemma str_replace_ne old new c s :
  Ascii.eqb c old = false ->
  str_replace old new (String c s) = String c (str_replace old new s).
Proof. intros H. cbn [str_replace]. by rewrite H. Qed.

Lemma find_ne c a s :
  Ascii.eqb a c = false ->
  Datetime.find c (String a s) = option_map S (Datetime.find c s).
Proof. intros H. cbn [Datetime.find]. by rewrite H. Qed.

Lemma parse_time_z h1 h2 n1 n2 s1 s2 h n sec :
  Datetime.two_digits (String h1 (String h2 "")) = Some (h, ""%string) ->
  Datetime.two_digits (String n1 (String n2 "")) = Some (n, ""%string) ->
  Datetime.two_digits (String s1 (String s2 "")) = Some (sec, ""%string) ->
  Datetime.parse_isoformat_time
    (String h1 (String h2 (String ":" (String n1 (String n2
       (String ":" (String s1 (String s2 "+00:00"))))))))
  = Some (h, n, sec, 0, Some 0).
Proof.
  intros Hh Hn Hs.
  destruct (two_digits_contains "-" _ _ _ eq_refl Hh) as [M1 M2].
  destruct (two_digits_contains "-" _ _ _ eq_refl Hn) as [M3 M4].
  destruct (two_digits_contains "-" _ _ _ eq_refl Hs) as [M5 M6].
  destruct (two_digits_contains "+" _ _ _ eq_refl Hh) as [P1 P2].
  destruct (two_digits_contains "+" _ _ _ eq_refl Hn) as [P3 P4].
  destruct (two_digits_contains "+" _ _ _ eq_refl Hs) as [P5 P6].
  unfold Datetime.parse_isoformat_time.
  cbn [String.length Nat.ltb Nat.leb].
  assert (Datetime.find "-"
            (String h1 (String h2 (String ":" (String n1 (String n2
               (String ":" (String s1 (String s2 "+00:00"))))))))
          = None) as ->.
  { rewrite !find_ne by (assumption || reflexivity). reflexivity. }
  assert (Datetime.find "+"
            (String h1 (String h2 (String ":" (String n1 (String n2
               (String ":" (String s1 (String s2 "+00:00"))))))))
          = Some 8%nat) as ->.
  { rewrite !find_ne by (assumption || reflexivity). reflexivity. }
  cbn [Datetime.slice Datetime.drop_str substring Nat.sub].
  unfold Datetime.parse_hh_mm_ss_ff at 1.
  rewrite (two_digits_rest _ _ _ _ Hh).
  cbn [Ascii.eqb Bool.eqb negb].
  rewrite (two_digits_rest _ _ _ _ Hn).
  cbn [Ascii.eqb Bool.eqb negb].
  rewrite Hs.
  reflexivity.
Qed.

(** X18. A creation timestamp written as [YYYY-MM-DDTHH:MM:SSZ], with
    digits in the six fields and the fields those of a date and a time
    of day that exist, is always read: the item gets exactly these
    fields, no microseconds and the offset of UTC, so such an item never
    counts as an error because of its date. *)
Theorem X18_utc_timestamp_is_accepted video yyyy mm dd hh nn ss y m d h n sec :
  String.length yyyy = 4%nat -> Datetime.digits yyyy = Some y ->
  String.length mm = 2%nat -> Datetime.digits mm = Some m ->
  String.length dd = 2%nat -> Datetime.digits dd = Some d ->
  Datetime.two_digits hh = Some (h, ""%string) ->
  Datetime.two_digits nn = Some (n, ""%string) ->
  Datetime.two_digits ss = Some (sec, ""%string) ->
  Datetime.valid_fields y m d h n sec 0 = true ->
  getitem video "created_time"
  = Ret (JStr (yyyy +:+ "-" +:+ mm +:+ "-" +:+ dd +:+ "T"
               +:+ hh +:+ ":" +:+ nn +:+ ":" +:+ ss +:+ "Z")) ->
  created_time_of video
  = Ret {| Datetime.year := y; Datetime.month := m; Datetime.day := d;
           Datetime.hour := h; Datetime.minute := n; Datetime.second := sec;
           Datetime.microsecond := 0; Datetime.utcoffset := Some 0 |}.
Proof.
  intros Ly Hy Lm Hm Ld Hd Hh Hn Hs Hv Hc.
  rewrite (created_time_of_string _ _ Hc). clear Hc.
  destruct yyyy as [|y1 [|y2 [|y3 [|y4 [|? ?]]]]]; try discriminate Ly.
  destruct mm as [|m1 [|m2 [|? ?]]]; try discriminate Lm.
  destruct dd as [|d1 [|d2 [|? ?]]]; try discriminate Ld.
  destruct hh as [|h1 [|h2 [|? ?]]]; try discriminate Hh.
  2: { revert Hh. unfold Datetime.two_digits.
       destruct (Datetime.digit h1); [|done].
       by destruct (Datetime.digit h2). }
  destruct nn as [|n1 [|n2 [|? ?]]]; try discriminate Hn.
  2: { revert Hn. unfold Datetime.two_digits.
       destruct (Datetime.digit n1); [|done].
       by destruct (Datetime.digit n2). }
  destruct ss as [|s1 [|s2 [|? ?]]]; try discriminate Hs.
  2: { revert Hs. unfold Datetime.two_digits.
       destruct (Datetime.digit s1); [|done].
       by destruct (Datetime.digit s2). }
  assert (forall c, Datetime.digit c = None ->
            (Ascii.eqb y1 c = false /\ Ascii.eqb y2 c = false
             /\ Ascii.eqb y3 c = false /\ Ascii.eqb y4 c = false)
            /\ (Ascii.eqb m1 c = false /\ Ascii.eqb m2 c = false)
            /\ (Ascii.eqb d1 c = false /\ Ascii.eqb d2 c = false)
            /\ (Ascii.eqb h1 c = false /\ Ascii.eqb h2 c = false)
            /\ (Ascii.eqb n1 c = false /\ Ascii.eqb n2 c = false)
            /\ (Ascii.eqb s1 c = false /\ Ascii.eqb s2 c = false)) as Hchars.
  { intros c Hc.
    pose proof (digits_contains c _ _ Hc Hy) as Cy.
    pose proof (digits_contains c _ _ Hc Hm) as Cm.
    pose proof (digits_contains c _ _ Hc Hd) as Cd.
    cbn in Cy, Cm, Cd.
    repeat match goal with
           | H : _ || _ = false |- _ => apply orb_false_iff in H as [? ?]
           end.
    pose proof (two_digits_contains c _ _ _ Hc Hh).
    pose proof (two_digits_contains c _ _ _ Hc Hn).
    pose proof (two_digits_contains c _ _ _ Hc Hs).
    tauto. }
  pose proof (Hchars "Z"%char eq_refl) as HZ.
  pose proof (Hchars "-"%char eq_refl) as HM.
  destruct HZ as ((Z1 & Z2 & Z3 & Z4) & (Z5 & Z6) & (Z7 & Z8) & (Z9 & Z10)
        & (Z11 & Z12) & (Z13 & Z14)).
  rewrite !append_cons.
  rewrite ?append_nil_l.
  destruct HM as (_ & _ & _ & (M9 & M10) & (M11 & M12) & (M13 & M14)).
  rewrite !str_replace_ne by (assumption || reflexivity).
  change (str_replace "Z" "+00:00" "Z") with "+00:00"%string.
  unfold Datetime.fromisoformat.
  cbn [Datetime.slice Datetime.drop_str substring Nat.sub].
  unfold Datetime.parse_isoformat_date.
  cbn [String.length Nat.eqb negb Datetime.slice substring Nat.sub].
  rewrite Hy, Hm, Hd.
  cbn [String.eqb Ascii.eqb Bool.eqb andb].
  rewrite (parse_time_z _ _ _ _ _ _ _ _ _ Hh Hn Hs).
  by rewrite Hv.
Qed.

End Further.

(** **** The further properties on concrete runs *)

(** X2 on a host whose key is the empty string. *)
Lemma X2_witness_empty_key :
  main decimal empty_key listing_down 5 fresh
  = (inl (StartupFailed
            (EnvironmentError
               "Missing required environment variables: VIMEO_KEY")),
     fresh).
Proof.
  apply (X2_missing_credential_stops_everything decimal empty_key
           listing_down 5 fresh "VIMEO_KEY"%string).
  - right. left. reflexivity.
  - right. reflexivity.
Defined.

(** X3 on a host with the credentials only, on one whose [PER_PAGE] is
    [ten], and on one that cannot make the directory. *)
Lemma X3_witness_hosts :
  main decimal configured (healthy [[first_ab]]) 5 fresh
  = (inr (Done {| processed := 1; errors := 0 |}),
     snd (process_videos downloads (healthy [[first_ab]]) 5 2022 fresh))
  /\ main decimal per_page_ten (healthy [[first_ab]]) 5 fresh
     = (inl (StartupFailed (IntValueError "ten")), fresh)
  /\ main decimal read_only (healthy [[first_ab]]) 5 fresh
     = (inl (StartupFailed (MakedirsError "downloads")), fresh).
Proof.
  split; [|split].
  - destruct (X3_main_defaults_and_startup_errors decimal configured
                (healthy [[first_ab]]) 5 fresh) as (H & _);
      [reflexivity|].
    rewrite H by reflexivity. vm_compute. reflexivity.
  - destruct (X3_main_defaults_and_startup_errors decimal per_page_ten
                (healthy [[first_ab]]) 5 fresh) as (_ & H & _);
      [reflexivity|].
    apply (H "ten"%string ValueError); reflexivity.
  - destruct (X3_main_defaults_and_startup_errors decimal read_only
                (healthy [[first_ab]]) 5 fresh) as (_ & _ & H);
      [reflexivity|].
    apply (H "downloads"%string 100 3); reflexivity.
Defined.

(** X7 on a download of three chunks, one of them empty. *)
Lemma X7_witness_three_chunks :
  progress_total
    (new_events fresh
       (snd (download_video downloads (healthy []) (JStr "https://cdn/1")
               "a_b" fresh)))
  = 22%nat.
Proof.
  apply (X7_progress_counts_the_bytes_written downloads (healthy [])
           (JStr "https://cdn/1") "a_b"%string fresh
           "bytes of https://cdn/1"%string).
  - reflexivity.
  - vm_compute. reflexivity.
Defined.

(** X11 on a run over two pages in which one item is out of the year. *)
Lemma X11_witness_two_pages :
  let evs :=
    new_events fresh
      (snd (process_videos downloads
              (healthy [[first_ab; next_year]; [second_ab]]) 5 2022 fresh)) in
  count is_deleted_log evs = 2%nat
  /\ count is_api_delete evs = count is_returned_ok evs
  /\ last evs = Some (Log INFO (MsgComplete 2 0)).
Proof.
  destruct (X11_success_counts_accepted_deletions downloads
              (healthy [[first_ab; next_year]; [second_ab]]) 5 2022 fresh
              {| processed := 2; errors := 0 |})
    as (Hp & _ & Hd & Hl); [vm_compute; reflexivity|].
  split; [|split].
  - symmetry. exact Hp.
  - exact Hd.
  - exact Hl.
Defined.


(** X14 on an item whose link is the empty string. *)
Lemma X14_witness_empty_link :
  process_video downloads (healthy []) 2022 (1, 0)%nat empty_link zero fresh
  = (Ret {| processed := 0; errors := 1 |}, fresh).
Proof.
  apply (X14_falsy_link_is_a_silent_error downloads (healthy []) 2022
           (1, 0)%nat empty_link zero fresh (JStr "/videos/8") "f"%string
           (JStr "")).
  - eexists. split; [vm_compute; reflexivity|reflexivity].
  - split; reflexivity.
  - reflexivity.
  - reflexivity.
Defined.


(** X18 on the last second of 2022. *)
Lemma X18_witness_last_second :
  created_time_of first_ab
  = Ret {| Datetime.year := 2022; Datetime.month := 12; Datetime.day := 31;
           Datetime.hour := 23; Datetime.minute := 59; Datetime.second := 59;
           Datetime.microsecond := 0; Datetime.utcoffset := Some 0 |}.
Proof.
  apply (X18_utc_timestamp_is_accepted first_ab
           "2022"%string "12"%string "31"%string
           "23"%string "59"%string "59"%string);
    reflexivity.
Defined.

End VimeoManager.
